(** * Order admission of the POS backend (src/main.py, src/models.py)

    A shallow embedding of the order routes of [main.py]: pricing,
    delivery minimum, promo codes, order numbers, persistence and the
    events published on the bus.

    Conventions of the model.
    - Python [float] amounts are exact rationals ([Q]); [int]s are [Z],
      lengths and counters are [nat].  Floating-point sums, products and
      [round] differ from the exact ones in the last digits, so the
      properties below take the amounts as the routes compute them and
      use them only through copies, comparisons, [min] and the sign of a
      difference, never through an algebraic law or a rounding bound.
    - The module-level globals ([DEMO_ORDERS], [demo_order_counter],
      [runtime_settings], ...), the two MongoDB collections the order
      routes use and the messages handed to Redis form the [World]; a
      route is a function from the world to a result and a new world.
    - Everything a request reads from outside the process (the clock, the
      identifier MongoDB assigns, whether a driver call raises) is an
      input of the request, the [Env]. *)

From Stdlib Require Import ZArith QArith Qround Qabs List String Ascii Bool Lia Lqa.
From Stdlib Require Import DecimalString DecimalNat.
Import ListNotations.

Local Open Scope string_scope.
Local Open Scope Q_scope.

(** ** Numbers *)

Definition Qlt_bool (x y : Q) : bool := negb (Qle_bool y x).

(** [sum(...)]: starts at [0] and adds from the left. *)
Definition py_sum (l : list Q) : Q := fold_left Qplus l 0.

(** [min(a, b)]: the first argument unless the second is smaller. *)
Definition py_min (a b : Q) : Q := if Qlt_bool b a then b else a.

(** [round(x, 2)]: the closest multiple of 1/100, ties to the even one. *)
Definition py_round2 (x : Q) : Q :=
  let y := x * 100 in
  let f := Qfloor y in
  let n := match (y - inject_Z f) ?= (1 # 2) with
           | Lt => f
           | Gt => (f + 1)%Z
           | Eq => if Z.even f then f else (f + 1)%Z
           end in
  inject_Z n / 100.

(** ** Strings *)

(** [str.upper()] on the ASCII letters. *)
Definition upper_ascii (c : ascii) : ascii :=
  let n := nat_of_ascii c in
  if (97 <=? n)%nat && (n <=? 122)%nat then ascii_of_nat (n - 32) else c.

Fixpoint upper (s : string) : string :=
  match s with
  | EmptyString => EmptyString
  | String c r => String (upper_ascii c) (upper r)
  end.

(** [s.replace(old, new)] for a non-empty [old]: every occurrence, found
    from the left, without overlap.  [skip] counts the characters of a
    match that are still to be dropped. *)
Fixpoint replace_from (skip : nat) (old new s : string) : string :=
  match s with
  | EmptyString => EmptyString
  | String c r =>
      match skip with
      | S k => replace_from k old new r
      | O =>
          if String.prefix old s
          then new ++ replace_from (String.length old - 1) old new r
          else String c (replace_from 0 old new r)
      end
  end.

Definition replace (s old new : string) : string := replace_from 0 old new s.

(** [str(n)] for a non-negative [int]. *)
Definition str_nat (n : nat) : string := NilZero.string_of_uint (Nat.to_uint n).

Fixpoint zeros (n : nat) : string :=
  match n with
  | O => EmptyString
  | S k => String "0" (zeros k)
  end.

(** [f"{n:0{width}d}"] for a non-negative [n]. *)
Definition format_0d (width n : nat) : string :=
  let s := str_nat n in zeros (width - String.length s) ++ s.

(** ** datetime *)

Record datetime := mkdt {
  year : N; month : N; day : N;
  hour : N; minute : N; second : N; microsecond : N
}.

Fixpoint lex_compare (a b : list N) : comparison :=
  match a, b with
  | x :: a', y :: b' =>
      match N.compare x y with
      | Eq => lex_compare a' b'
      | c => c
      end
  | [], [] => Eq
  | [], _ => Lt
  | _, [] => Gt
  end.

Definition dt_fields (d : datetime) : list N :=
  [year d; month d; day d; hour d; minute d; second d; microsecond d].

Definition dt_compare (a b : datetime) : comparison :=
  lex_compare (dt_fields a) (dt_fields b).

Definition dt_ltb (a b : datetime) : bool :=
  match dt_compare a b with Lt => true | _ => false end.

Definition dt_geb (a b : datetime) : bool := negb (dt_ltb a b).

(** [d.strftime("%Y%m%d")] *)
Definition strftime_Ymd (d : datetime) : string :=
  format_0d 4 (N.to_nat (year d)) ++ format_0d 2 (N.to_nat (month d))
  ++ format_0d 2 (N.to_nat (day d)).

(** [d.replace(hour=0, minute=0, second=0)]: the microsecond is kept. *)
Definition replace_hms0 (d : datetime) : datetime :=
  mkdt (year d) (month d) (day d) 0 0 0 (microsecond d).

Definition same_day (a b : datetime) : Prop :=
  year a = year b /\ month a = month b /\ day a = day b.

(** ** models.py *)

Record SelectedModifier := {
  group_name : string;
  option_name : string;
  price_add : Q
}.

Record OrderItem := {
  product_id : string;
  name : string;
  qty : Z;
  price : Q;
  modifiers : list SelectedModifier;
  is_combo : bool;
  combo_items : option (list (list (string * string)))
}.

Record OrderCreate := {
  items : list OrderItem;
  order_type : string;
  table_number : option Z;
  customer_name : option string;
  customer_phone : option string;
  delivery_zone : option string;
  notes : option string;
  promo_code : option string
}.

(** A document of the [promo_codes] collection, or an entry of
    [DEMO_PROMO_CODES]. *)
Record PromoDoc := {
  code : string;
  discount_type : string;
  discount_value : Q;
  valid_from : option datetime;
  valid_to : option datetime;
  usage_limit : option Z;
  usage_count : Z;
  min_order_amount : Q;
  is_active : bool
}.

(** The [order_doc] dictionary of [create_order]. *)
Record OrderDoc := {
  _id : option string;
  order_number : string;
  o_items : list OrderItem;
  subtotal : Q;
  discount_amount : Q;
  o_promo_code : option string;
  total : Q;
  status : string;
  payment_status : string;
  o_order_type : string;
  o_table_number : option Z;
  o_customer_name : option string;
  o_customer_phone : option string;
  o_delivery_zone : option string;
  o_notes : option string;
  created_at : datetime
}.

(** [runtime_settings["delivery"]]; a key may be missing from the
    dictionary loaded from the settings collection. *)
Record DeliverySettings := {
  enabled : option bool;
  ds_min_order_amount : option Q;
  min_order_amount_out_of_city : option Q;
  min_order_message : option string
}.

(** The payloads of [redis_manager.publish]. *)
Inductive Event :=
| new_order (order : OrderDoc)
| order_updated (order_id : string) (new_status : string).

Definition CHANNEL_ORDERS_NEW : string := "pos:orders:new".

(** ** The world and the requests' inputs *)

(** [connected] stands for the test
    [database.connected and database.<collection> is not None] that every
    route repeats: [connect_db] sets the flag only after it has bound all
    the collections. *)
Record World := {
  connected : bool;
  orders : list OrderDoc;
  promo_codes : list PromoDoc;
  DEMO_ORDERS : list OrderDoc;
  DEMO_PROMO_CODES : list PromoDoc;
  demo_order_counter : nat;
  delivery : DeliverySettings;
  published : list (string * Event)
}.

(** What one request reads from outside the process: each call of
    [datetime.utcnow()] in the order the code makes it, the identifier
    MongoDB gives the inserted document, and for each driver or Redis
    call whether it raises (a route makes each of these calls at most
    once). *)
Record Env := {
  utcnow_validate : datetime;
  utcnow_today : datetime;
  utcnow_midnight : datetime;
  utcnow_doc : datetime;
  utcnow_insert : datetime;
  inserted_id : string;
  find_one_raises : bool;
  update_one_raises : bool;
  count_documents_raises : bool;
  insert_one_raises : bool;
  publish_raises : bool
}.

Inductive Exn := PyMongoError | InvalidId | RedisError.

(** The outcome of a route: its return value, an [HTTPException], or an
    exception that nothing catches. *)
Inductive Result (A : Type) :=
| Ok (a : A)
| HTTPException (status_code : nat) (detail : string)
| Raised (e : Exn).

Arguments Ok {A} a.
Arguments HTTPException {A} status_code detail.
Arguments Raised {A} e.

Definition M (A : Type) : Type := World -> Result A * World.

Definition ret {A} (a : A) : M A := fun w => (Ok a, w).

Definition bind {A B} (m : M A) (k : A -> M B) : M B :=
  fun w =>
    match m w with
    | (Ok a, w') => k a w'
    | (HTTPException c d, w') => (HTTPException c d, w')
    | (Raised e, w') => (Raised e, w')
    end.

Definition raise {A} (e : Exn) : M A := fun w => (Raised e, w).

Definition raise_http {A} (c : nat) (d : string) : M A :=
  fun w => (HTTPException c d, w).

Definition gets {A} (f : World -> A) : M A := fun w => (Ok (f w), w).

Definition modify (f : World -> World) : M unit := fun w => (Ok tt, f w).

(** [try: m except Exception: pass].  An [HTTPException] is an
    [Exception] too. *)
Definition try_pass {A} (m : M A) : M unit :=
  fun w => (Ok tt, snd (m w)).

Declare Scope route_scope.
Delimit Scope route_scope with route.
Notation "x <- c ;; k" := (bind c (fun x => k))
  (at level 61, c at next level, right associativity) : route_scope.
Notation "c ;;; k" := (bind c (fun _ => k))
  (at level 61, right associativity) : route_scope.
Local Open Scope route_scope.

(** *** Setters *)

Definition with_orders (l : list OrderDoc) (w : World) : World :=
  {| connected := connected w; orders := l; promo_codes := promo_codes w;
     DEMO_ORDERS := DEMO_ORDERS w; DEMO_PROMO_CODES := DEMO_PROMO_CODES w;
     demo_order_counter := demo_order_counter w; delivery := delivery w;
     published := published w |}.

Definition with_promo_codes (l : list PromoDoc) (w : World) : World :=
  {| connected := connected w; orders := orders w; promo_codes := l;
     DEMO_ORDERS := DEMO_ORDERS w; DEMO_PROMO_CODES := DEMO_PROMO_CODES w;
     demo_order_counter := demo_order_counter w; delivery := delivery w;
     published := published w |}.

Definition with_DEMO_ORDERS (l : list OrderDoc) (w : World) : World :=
  {| connected := connected w; orders := orders w; promo_codes := promo_codes w;
     DEMO_ORDERS := l; DEMO_PROMO_CODES := DEMO_PROMO_CODES w;
     demo_order_counter := demo_order_counter w; delivery := delivery w;
     published := published w |}.

Definition with_demo_order_counter (n : nat) (w : World) : World :=
  {| connected := connected w; orders := orders w; promo_codes := promo_codes w;
     DEMO_ORDERS := DEMO_ORDERS w; DEMO_PROMO_CODES := DEMO_PROMO_CODES w;
     demo_order_counter := n; delivery := delivery w;
     published := published w |}.

Definition with_published (l : list (string * Event)) (w : World) : World :=
  {| connected := connected w; orders := orders w; promo_codes := promo_codes w;
     DEMO_ORDERS := DEMO_ORDERS w; DEMO_PROMO_CODES := DEMO_PROMO_CODES w;
     demo_order_counter := demo_order_counter w; delivery := delivery w;
     published := l |}.

Definition set_id (i : option string) (o : OrderDoc) : OrderDoc :=
  {| _id := i; order_number := order_number o; o_items := o_items o;
     subtotal := subtotal o; discount_amount := discount_amount o;
     o_promo_code := o_promo_code o; total := total o; status := status o;
     payment_status := payment_status o; o_order_type := o_order_type o;
     o_table_number := o_table_number o; o_customer_name := o_customer_name o;
     o_customer_phone := o_customer_phone o; o_delivery_zone := o_delivery_zone o;
     o_notes := o_notes o; created_at := created_at o |}.

Definition set_created_at (d : datetime) (o : OrderDoc) : OrderDoc :=
  {| _id := _id o; order_number := order_number o; o_items := o_items o;
     subtotal := subtotal o; discount_amount := discount_amount o;
     o_promo_code := o_promo_code o; total := total o; status := status o;
     payment_status := payment_status o; o_order_type := o_order_type o;
     o_table_number := o_table_number o; o_customer_name := o_customer_name o;
     o_customer_phone := o_customer_phone o; o_delivery_zone := o_delivery_zone o;
     o_notes := o_notes o; created_at := d |}.

Definition set_status (s : string) (o : OrderDoc) : OrderDoc :=
  {| _id := _id o; order_number := order_number o; o_items := o_items o;
     subtotal := subtotal o; discount_amount := discount_amount o;
     o_promo_code := o_promo_code o; total := total o; status := s;
     payment_status := payment_status o; o_order_type := o_order_type o;
     o_table_number := o_table_number o; o_customer_name := o_customer_name o;
     o_customer_phone := o_customer_phone o; o_delivery_zone := o_delivery_zone o;
     o_notes := o_notes o; created_at := created_at o |}.

Definition set_payment_status (s : string) (o : OrderDoc) : OrderDoc :=
  {| _id := _id o; order_number := order_number o; o_items := o_items o;
     subtotal := subtotal o; discount_amount := discount_amount o;
     o_promo_code := o_promo_code o; total := total o; status := status o;
     payment_status := s; o_order_type := o_order_type o;
     o_table_number := o_table_number o; o_customer_name := o_customer_name o;
     o_customer_phone := o_customer_phone o; o_delivery_zone := o_delivery_zone o;
     o_notes := o_notes o; created_at := created_at o |}.

Definition inc_usage_count (p : PromoDoc) : PromoDoc :=
  {| code := code p; discount_type := discount_type p;
     discount_value := discount_value p; valid_from := valid_from p;
     valid_to := valid_to p; usage_limit := usage_limit p;
     usage_count := (usage_count p + 1)%Z;
     min_order_amount := min_order_amount p; is_active := is_active p |}.

(** ** The driver and the bus *)

(** [update_one]: the first document the filter matches is changed; the
    flag is [matched_count <> 0]. *)
Fixpoint update_first {A} (p : A -> bool) (f : A -> A) (l : list A)
  : list A * bool :=
  match l with
  | [] => ([], false)
  | x :: r =>
      if p x then (f x :: r, true)
      else let '(r', m) := update_first p f r in (x :: r', m)
  end.

(** [database.promo_codes.find_one({"code": c})] *)
Definition promo_codes_find_one (env : Env) (c : string) : M (option PromoDoc) :=
  if find_one_raises env then raise PyMongoError
  else gets (fun w => find (fun p => (code p =? c)%string) (promo_codes w)).

(** [database.promo_codes.update_one({"code": c}, {"$inc": {"usage_count": 1}})] *)
Definition promo_codes_inc_usage (env : Env) (c : string) : M unit :=
  if update_one_raises env then raise PyMongoError
  else modify (fun w =>
         with_promo_codes
           (fst (update_first (fun p => (code p =? c)%string)
                              inc_usage_count (promo_codes w))) w).

(** [database.orders.count_documents({"created_at": {"$gte": d}})] *)
Definition orders_count_since (env : Env) (d : datetime) : M nat :=
  if count_documents_raises env then raise PyMongoError
  else gets (fun w =>
         List.length (filter (fun o => dt_geb (created_at o) d) (orders w))).

(** [database.orders.insert_one(doc)]: the stored document carries the
    new identifier, which is also the result. *)
Definition orders_insert_one (env : Env) (doc : OrderDoc) : M string :=
  if insert_one_raises env then raise PyMongoError
  else
    modify (fun w =>
      with_orders (orders w ++ [set_id (Some (inserted_id env)) doc]) w) ;;;
    ret (inserted_id env).

(** [await redis_manager.publish(channel, message)] *)
Definition publish (env : Env) (channel : string) (message : Event) : M unit :=
  if publish_raises env then raise RedisError
  else modify (fun w => with_published (published w ++ [(channel, message)]) w).

(** ** Promo codes *)

(** The [error] strings of [validate_promo_code], in source order:
    "Промокод не знайдено", "Промокод неактивний",
    "Промокод ще не активний", "Термін дії промокоду закінчився",
    "Ліміт використання вичерпано" and
    "Мінімальна сума замовлення: <min_order_amount> грн". *)
Inductive PromoError :=
| PromoNotFound
| PromoInactive
| PromoNotYetValid
| PromoExpired
| PromoUsageExceeded
| PromoMinimumNotMet (min_amount : Q).

(** [{"valid": True, "promo": p}] or [{"valid": False, "error": e}] *)
Inductive PromoResult :=
| Valid (promo : PromoDoc)
| Invalid (error : PromoError).

Definition valid (r : PromoResult) : bool :=
  match r with Valid _ => true | Invalid _ => false end.

Definition validate_promo_code (env : Env) (c : string) (order_total : Q)
  : M PromoResult :=
  db <- gets connected ;;
  if negb db then
    (* Demo mode *)
    demo <- gets DEMO_PROMO_CODES ;;
    match find (fun promo => (upper (code promo) =? upper c)%string
                             && is_active promo) demo with
    | Some promo => ret (Valid promo)
    | None => ret (Invalid PromoNotFound)
    end
  else
    found <- promo_codes_find_one env (upper c) ;;
    match found with
    | None => ret (Invalid PromoNotFound)
    | Some promo =>
        if negb (is_active promo) then ret (Invalid PromoInactive)
        else
          let now := utcnow_validate env in
          if match valid_from promo with
             | Some d => dt_ltb now d
             | None => false
             end
          then ret (Invalid PromoNotYetValid)
          else if match valid_to promo with
                  | Some d => dt_ltb d now
                  | None => false
                  end
          then ret (Invalid PromoExpired)
          else if match usage_limit promo with
                  | Some l => negb (l =? 0)%Z && (l <=? usage_count promo)%Z
                  | None => false
                  end
          then ret (Invalid PromoUsageExceeded)
          else if Qlt_bool order_total (min_order_amount promo)
          then ret (Invalid (PromoMinimumNotMet (min_order_amount promo)))
          else ret (Valid promo)
    end.

Definition calculate_discount (promo : PromoDoc) (order_total : Q) : Q :=
  if (discount_type promo =? "percentage")%string
  then py_round2 (order_total * discount_value promo / 100)
  else (* fixed *) py_min (discount_value promo) order_total.

(** ** Order numbers *)

Definition generate_order_number (env : Env) : M string :=
  let today := strftime_Ymd (utcnow_today env) in
  db <- gets connected ;;
  count <- (if db then orders_count_since env (replace_hms0 (utcnow_midnight env))
            else
              modify (fun w => with_demo_order_counter (demo_order_counter w + 1) w) ;;;
              gets demo_order_counter) ;;
  ret ("ORD-" ++ today ++ "-" ++ format_0d 3 count).

(** ** The order routes *)

Section Routes.

(** [str] on a number, and [bson.ObjectId] on a string ([None] where it
    raises [InvalidId], else the identifier as MongoDB stores it):
    library functions the routes call. *)
Variable py_str : Q -> string.
Variable ObjectId : string -> option string.

Definition default_min_order_message : string :=
  "Мінімальна сума для доставки: {amount} грн".

(** [d.get(key, default)] *)
Definition get {A} (v : option A) (default : A) : A :=
  match v with Some a => a | None => default end.

(** The truth value of an optional string: [None] and the empty string
    are false. *)
Definition truthy (s : option string) : bool :=
  match s with
  | Some EmptyString | None => false
  | Some _ => true
  end.

(** [v == s] for an optional string [v]. *)
Definition is_str (v : option string) (s : string) : bool :=
  match v with
  | Some x => (x =? s)%string
  | None => false
  end.

(** [data.promo_code] where the route has found it true, hence a string. *)
Definition code_given (data : OrderCreate) : string :=
  get (promo_code data) EmptyString.

Definition cart_subtotal (data : OrderCreate) : Q :=
  py_sum (map (fun item => price item * inject_Z (qty item)) (items data)).

(** POST /api/orders *)
Definition create_order (env : Env) (data : OrderCreate) : M OrderDoc :=
  let subtotal := cart_subtotal data in
  (* Validate minimum order amount for delivery *)
  (if (order_type data =? "delivery")%string then
     delivery_settings <- gets delivery ;;
     if get (enabled delivery_settings) false then
       (* Determine which minimum to use based on delivery zone *)
       let min_amount :=
         if is_str (delivery_zone data) "out_of_city"
         then get (min_order_amount_out_of_city delivery_settings) 0
         else get (ds_min_order_amount delivery_settings) 0 in
       if Qlt_bool 0 min_amount && Qlt_bool subtotal min_amount then
         let message := get (min_order_message delivery_settings)
                            default_min_order_message in
         raise_http 400 (replace message "{amount}" (py_str min_amount))
       else ret tt
     else ret tt
   else ret tt) ;;;
  (* Apply promo code if provided *)
  applied <-
    (if truthy (promo_code data) then
       promo_result <- validate_promo_code env (code_given data) subtotal ;;
       match promo_result with
       | Valid promo =>
           (* Increment usage count *)
           db <- gets connected ;;
           (if db then promo_codes_inc_usage env (code promo) else ret tt) ;;;
           ret (calculate_discount promo subtotal, Some (code promo))
       | Invalid _ => ret (0, None)
       end
     else ret (0, None)) ;;
  let discount_amount := fst applied in
  let promo_code_used := snd applied in
  let total := subtotal - discount_amount in
  number <- generate_order_number env ;;
  let order_doc :=
    {| _id := None;
       order_number := number;
       o_items := items data;
       subtotal := subtotal;
       discount_amount := discount_amount;
       o_promo_code := promo_code_used;
       total := total;
       status := "new";
       payment_status := "pending";
       o_order_type := order_type data;
       o_table_number := table_number data;
       o_customer_name := customer_name data;
       o_customer_phone := customer_phone data;
       o_delivery_zone := delivery_zone data;
       o_notes := notes data;
       created_at := utcnow_doc env |} in
  db <- gets connected ;;
  order_doc <-
    (if negb db then
       n <- gets (fun w => List.length (DEMO_ORDERS w)) ;;
       let doc := set_id (Some (str_nat (n + 1))) order_doc in
       modify (fun w => with_DEMO_ORDERS (doc :: DEMO_ORDERS w) w) ;;;
       ret doc
     else
       let doc := set_created_at (utcnow_insert env) order_doc in
       oid <- orders_insert_one env doc ;;
       ret (set_id (Some oid) doc)) ;;
  (* Publish to Redis (if connected) *)
  try_pass (publish env CHANNEL_ORDERS_NEW (new_order order_doc)) ;;;
  (* The Telegram notification that follows is wrapped in try/except and
     touches neither the stores nor the bus. *)
  ret order_doc.

Definition valid_statuses : list string :=
  ["new"; "preparing"; "ready"; "completed"; "cancelled"]%string.

Definition mem (s : string) (l : list string) : bool :=
  existsb (String.eqb s) l.

Definition has_id (i : string) (o : OrderDoc) : bool :=
  match _id o with
  | Some j => (j =? i)%string
  | None => false
  end.

(** [database.orders.update_one({"_id": oid}, {"$set": ...})];
    the result is [matched_count <> 0]. *)
Definition orders_update_one (env : Env) (oid : string)
    (f : OrderDoc -> OrderDoc) : M bool :=
  if update_one_raises env then raise PyMongoError
  else
    l <- gets orders ;;
    let r := update_first (has_id oid) f l in
    modify (with_orders (fst r)) ;;;
    ret (snd r).

(** PUT /api/orders/{order_id}/status *)
Definition update_order_status (env : Env) (order_id status : string) : M string :=
  if negb (mem status valid_statuses) then raise_http 400 "Invalid status"
  else
    db <- gets connected ;;
    (if negb db then
       (* the loop over DEMO_ORDERS, left at the first match *)
       modify (fun w =>
         with_DEMO_ORDERS
           (fst (update_first (has_id order_id) (set_status status)
                              (DEMO_ORDERS w))) w)
     else
       match ObjectId order_id with
       | None => raise InvalidId
       | Some oid =>
           matched <- orders_update_one env oid (set_status status) ;;
           if negb matched then raise_http 404 "Order not found" else ret tt
       end) ;;;
    (* Publish update *)
    try_pass (publish env CHANNEL_ORDERS_NEW (order_updated order_id status)) ;;;
    ret "updated".

(** PUT /api/orders/{order_id}/payment *)
Definition update_payment_status (env : Env) (order_id payment_status : string)
  : M string :=
  if negb (mem payment_status ["pending"; "paid"]%string)
  then raise_http 400 "Invalid payment status"
  else
    db <- gets connected ;;
    (if negb db then
       modify (fun w =>
         with_DEMO_ORDERS
           (fst (update_first (has_id order_id)
                              (set_payment_status payment_status)
                              (DEMO_ORDERS w))) w)
     else
       match ObjectId order_id with
       | None => raise InvalidId
       | Some oid =>
           matched <- orders_update_one env oid
                        (set_payment_status payment_status) ;;
           if negb matched then raise_http 404 "Order not found" else ret tt
       end) ;;;
    ret "updated".

End Routes.

(** ** The steps of [create_order]

    The blocks of the route (the delivery minimum, the promo code, the
    order document and its storage), and the route as their sequence;
    [create_order_steps_eq] below shows the two agree. *)

Section Steps.

Variable py_str : Q -> string.

(** The minimum the delivery block compares the subtotal with. *)
Definition delivery_threshold (data : OrderCreate) (w : World) : Q :=
  if is_str (delivery_zone data) "out_of_city"
  then get (min_order_amount_out_of_city (delivery w)) 0
  else get (ds_min_order_amount (delivery w)) 0.

Definition below_delivery_minimum (data : OrderCreate) (w : World) : bool :=
  (order_type data =? "delivery")%string
  && get (enabled (delivery w)) false
  && (Qlt_bool 0 (delivery_threshold data w)
      && Qlt_bool (cart_subtotal data) (delivery_threshold data w)).

Definition delivery_message (data : OrderCreate) (w : World) : string :=
  replace (get (min_order_message (delivery w)) default_min_order_message)
          "{amount}" (py_str (delivery_threshold data w)).

Definition check_delivery_minimum (data : OrderCreate) : M unit :=
  fun w =>
    if below_delivery_minimum data w
    then (HTTPException 400 (delivery_message data w), w)
    else (Ok tt, w).

Definition apply_promo (env : Env) (data : OrderCreate) : M (Q * option string) :=
  if truthy (promo_code data) then
    promo_result <- validate_promo_code env (code_given data)
                                        (cart_subtotal data) ;;
    match promo_result with
    | Valid promo =>
        db <- gets connected ;;
        (if db then promo_codes_inc_usage env (code promo) else ret tt) ;;;
        ret (calculate_discount promo (cart_subtotal data), Some (code promo))
    | Invalid _ => ret (0, None)
    end
  else ret (0, None).

Definition build_order_doc (env : Env) (data : OrderCreate)
    (applied : Q * option string) (number : string) : OrderDoc :=
  {| _id := None;
     order_number := number;
     o_items := items data;
     subtotal := cart_subtotal data;
     discount_amount := fst applied;
     o_promo_code := snd applied;
     total := cart_subtotal data - fst applied;
     status := "new";
     payment_status := "pending";
     o_order_type := order_type data;
     o_table_number := table_number data;
     o_customer_name := customer_name data;
     o_customer_phone := customer_phone data;
     o_delivery_zone := delivery_zone data;
     o_notes := notes data;
     created_at := utcnow_doc env |}.

Definition persist (env : Env) (order_doc : OrderDoc) : M OrderDoc :=
  db <- gets connected ;;
  if negb db then
    n <- gets (fun w => List.length (DEMO_ORDERS w)) ;;
    let doc := set_id (Some (str_nat (n + 1))) order_doc in
    modify (fun w => with_DEMO_ORDERS (doc :: DEMO_ORDERS w) w) ;;;
    ret doc
  else
    let doc := set_created_at (utcnow_insert env) order_doc in
    oid <- orders_insert_one env doc ;;
    ret (set_id (Some oid) doc).

(** From the order number to the [return]. *)
Definition commit_order (env : Env) (data : OrderCreate)
    (applied : Q * option string) : M OrderDoc :=
  number <- generate_order_number env ;;
  order_doc <- persist env (build_order_doc env data applied number) ;;
  try_pass (publish env CHANNEL_ORDERS_NEW (new_order order_doc)) ;;;
  ret order_doc.

Definition create_order_steps (env : Env) (data : OrderCreate) : M OrderDoc :=
  check_delivery_minimum data ;;;
  applied <- apply_promo env data ;;
  commit_order env data applied.

End Steps.

(** The world after the usage count of [promo] has been incremented: the
    [$inc] of [create_order], which only runs against the database. *)
Definition redeemed (promo : PromoDoc) (w : World) : World :=
  if connected w
  then with_promo_codes
         (fst (update_first (fun p => (code p =? code promo)%string)
                            inc_usage_count (promo_codes w))) w
  else w.

(** The uses recorded for the code [c] in a promo store. *)
Fixpoint usage_total (c : string) (l : list PromoDoc) : Z :=
  match l with
  | [] => 0%Z
  | p :: r =>
      ((if (code p =? c)%string then usage_count p else 0) + usage_total c r)%Z
  end.

(** ** [commit_order] in closed form *)

(** The world once the [new_order] event for [o] has been handed to the
    bus, or dropped by the [except] clause. *)
Definition after_publish (env : Env) (o : OrderDoc) (w : World) : World :=
  if publish_raises env then w
  else with_published (published w ++ [(CHANNEL_ORDERS_NEW, new_order o)]) w.

(** The number the allocator gives in the world [w]. *)
Definition order_number_in (env : Env) (w : World) : string :=
  "ORD-" ++ strftime_Ymd (utcnow_today env) ++ "-"
  ++ format_0d 3
       (if connected w
        then List.length
               (filter (fun o => dt_geb (created_at o)
                                   (replace_hms0 (utcnow_midnight env)))
                       (orders w))
        else (demo_order_counter w + 1)%nat).

(** ** The specification's formulas *)

Fixpoint modifiers_delta (l : list SelectedModifier) : Q :=
  match l with
  | [] => 0
  | m :: r => price_add m + modifiers_delta r
  end.

(** The subtotal as the specification words it: the modifiers' price
    deltas are added to the unit price before the multiplication. *)
Fixpoint spec_subtotal (l : list OrderItem) : Q :=
  match l with
  | [] => 0
  | item :: r =>
      (price item + modifiers_delta (modifiers item)) * inject_Z (qty item)
      + spec_subtotal r
  end.

(** The promo checks as the specification orders them, on the outcome
    [found] of the search for the code. *)
Definition spec_promo_check (found : option PromoDoc) (now : datetime)
    (order_total : Q) : PromoResult :=
  match found with
  | None => Invalid PromoNotFound
  | Some promo =>
      if negb (is_active promo) then Invalid PromoInactive
      else if match valid_from promo with
              | Some d => dt_ltb now d | None => false end
      then Invalid PromoNotYetValid
      else if match valid_to promo with
              | Some d => dt_ltb d now | None => false end
      then Invalid PromoExpired
      else if match usage_limit promo with
              | Some l => (l <=? usage_count promo)%Z | None => false end
      then Invalid PromoUsageExceeded
      else if Qlt_bool order_total (min_order_amount promo)
      then Invalid (PromoMinimumNotMet (min_order_amount promo))
      else Valid promo
  end.

(** ** Sample data *)

(** [str] on the whole, non-negative amounts of the examples. *)
Definition str_whole (q : Q) : string := str_nat (Z.to_nat (Qfloor q)).

(** [ObjectId] on strings of 24 characters, as the examples use them. *)
Definition ObjectId_24 (s : string) : option string :=
  if (String.length s =? 24)%nat then Some s else None.

Definition noon : datetime := mkdt 2024 1 1 12 0 0 0.

(** A request at the instant [t] during which nothing raises and whose
    document, if one is inserted, gets the identifier [oid]. *)
Definition at_time (t : datetime) (oid : string) : Env :=
  {| utcnow_validate := t; utcnow_today := t; utcnow_midnight := t;
     utcnow_doc := t; utcnow_insert := t; inserted_id := oid;
     find_one_raises := false; update_one_raises := false;
     count_documents_raises := false; insert_one_raises := false;
     publish_raises := false |}.

Definition quiet : Env := at_time noon "65a000000000000000000001".

Definition item (n : string) (q : Z) (p : Q) (ms : list SelectedModifier)
  : OrderItem :=
  {| product_id := "p1"; name := n; qty := q; price := p; modifiers := ms;
     is_combo := false; combo_items := None |}.

Definition cart (l : list OrderItem) (type : string) (zone promo : option string)
  : OrderCreate :=
  {| items := l; order_type := type; table_number := None;
     customer_name := None; customer_phone := None; delivery_zone := zone;
     notes := None; promo_code := promo |}.

Definition promo (c kind : string) (value : Q) (limit : option Z) (active : bool)
  : PromoDoc :=
  {| code := c; discount_type := kind; discount_value := value;
     valid_from := None; valid_to := None; usage_limit := limit;
     usage_count := 0; min_order_amount := 0; is_active := active |}.

Definition delivery_min_100 : DeliverySettings :=
  {| enabled := Some true; ds_min_order_amount := Some 100;
     min_order_amount_out_of_city := Some 200; min_order_message := None |}.

(** A world with [db] as the connection flag, [ps] in the promo store
    that this flag selects, and no orders. *)
Definition shop (db : bool) (ps : list PromoDoc) : World :=
  {| connected := db; orders := []; promo_codes := if db then ps else [];
     DEMO_ORDERS := []; DEMO_PROMO_CODES := if db then [] else ps;
     demo_order_counter := 0; delivery := delivery_min_100; published := [] |}.

(** The same request when [insert_one] raises. *)
Definition insert_fails : Env :=
  {| utcnow_validate := noon; utcnow_today := noon; utcnow_midnight := noon;
     utcnow_doc := noon; utcnow_insert := noon;
     inserted_id := "65a000000000000000000001";
     find_one_raises := false; update_one_raises := false;
     count_documents_raises := false; insert_one_raises := true;
     publish_raises := false |}.

(** ** Further routes of [main.py] *)

Definition with_DEMO_PROMO_CODES (l : list PromoDoc) (w : World) : World :=
  {| connected := connected w; orders := orders w; promo_codes := promo_codes w;
     DEMO_ORDERS := DEMO_ORDERS w; DEMO_PROMO_CODES := l;
     demo_order_counter := demo_order_counter w; delivery := delivery w;
     published := published w |}.

(** *** GET /api/orders *)

(** [l[:limit]]: a negative [limit] counts from the end. *)
Definition slice_to {A} (l : list A) (limit : Z) : list A :=
  if (0 <=? limit)%Z then firstn (Z.to_nat limit) l
  else firstn (List.length l - Z.to_nat (- limit)) l.

Section Listing.

(** [database.orders.find(query).sort("created_at", -1).limit(limit)],
    read to its end: the driver's part of the route, on the status of the
    query (if any), the limit and the collection. *)
Variable orders_find_sorted : option string -> Z -> list OrderDoc -> list OrderDoc.

(** [find_raises]: whether reading the cursor raises. *)
Definition get_orders (find_raises : bool) (by_status : option string)
    (limit : Z) : M (list OrderDoc) :=
  db <- gets connected ;;
  if negb db then
    result <- gets DEMO_ORDERS ;;
    let result :=
      if truthy by_status
      then filter (fun o => is_str by_status (status o)) result
      else result in
    ret (slice_to result limit)
  else
    if find_raises then raise PyMongoError
    else
      l <- gets orders ;;
      ret (orders_find_sorted (if truthy by_status then by_status else None)
                              limit l).

End Listing.

(** *** POST /api/promo-codes/validate *)

(** The two dictionaries the route answers with. *)
Inductive PromoPreview :=
| preview_valid (p_code p_discount_type : string)
                (p_discount_value p_discount_amount new_total : Q)
| preview_invalid (error : PromoError).

Definition validate_promo (env : Env) (c : string) (order_total : Q)
  : M PromoPreview :=
  result <- validate_promo_code env c order_total ;;
  match result with
  | Valid promo =>
      let discount := calculate_discount promo order_total in
      ret (preview_valid (code promo) (discount_type promo)
                         (discount_value promo) discount
                         (order_total - discount))
  | Invalid e => ret (preview_invalid e)
  end.

(** *** POST /api/promo-codes *)

(** [models.PromoCodeCreate] *)
Record PromoCodeCreate := {
  pc_code : string;
  pc_discount_type : string;
  pc_discount_value : Q;
  pc_valid_from : option datetime;
  pc_valid_to : option datetime;
  pc_usage_limit : option Z;
  pc_min_order_amount : Q;
  pc_is_active : bool
}.

(** [data.model_dump()] with the code in upper case and no use counted:
    the part of [promo_doc] that the promo stores of the model keep. *)
Definition new_promo_doc (data : PromoCodeCreate) : PromoDoc :=
  {| code := upper (pc_code data);
     discount_type := pc_discount_type data;
     discount_value := pc_discount_value data;
     valid_from := pc_valid_from data;
     valid_to := pc_valid_to data;
     usage_limit := pc_usage_limit data;
     usage_count := 0;
     min_order_amount := pc_min_order_amount data;
     is_active := pc_is_active data |}.

(** The [promo_doc] the route returns: the stored fields with the
    identifier and the creation time. *)
Record PromoCreated := {
  created_id : string;
  created_doc : PromoDoc;
  created_time : datetime
}.

(** [database.promo_codes.insert_one(promo_doc)] *)
Definition promo_codes_insert_one (env : Env) (doc : PromoDoc) : M string :=
  if insert_one_raises env then raise PyMongoError
  else
    modify (fun w => with_promo_codes (promo_codes w ++ [doc]) w) ;;;
    ret (inserted_id env).

Definition create_promo_code (env : Env) (data : PromoCodeCreate)
  : M PromoCreated :=
  db <- gets connected ;;
  if negb db then
    n <- gets (fun w => List.length (DEMO_PROMO_CODES w)) ;;
    modify (fun w =>
      with_DEMO_PROMO_CODES (DEMO_PROMO_CODES w ++ [new_promo_doc data]) w) ;;;
    ret {| created_id := str_nat (n + 1);
           created_doc := new_promo_doc data;
           created_time := utcnow_doc env |}
  else
    (* Check if code already exists *)
    existing <- promo_codes_find_one env (upper (pc_code data)) ;;
    match existing with
    | Some _ => raise_http 400 "Промокод вже існує"
    | None =>
        oid <- promo_codes_insert_one env (new_promo_doc data) ;;
        ret {| created_id := oid;
               created_doc := new_promo_doc data;
               created_time := utcnow_doc env |}
    end.

(** ** Auxiliary notions of the properties *)

(** The request [env] with a bus that refuses the message. *)
Definition bus_down (env : Env) : Env :=
  {| utcnow_validate := utcnow_validate env; utcnow_today := utcnow_today env;
     utcnow_midnight := utcnow_midnight env; utcnow_doc := utcnow_doc env;
     utcnow_insert := utcnow_insert env; inserted_id := inserted_id env;
     find_one_raises := find_one_raises env;
     update_one_raises := update_one_raises env;
     count_documents_raises := count_documents_raises env;
     insert_one_raises := insert_one_raises env;
     publish_raises := true |}.

(** Reading a decimal numeral back ([int(s)] on digits). *)
Definition nat_of_string (s : string) : option nat :=
  option_map Nat.of_uint (NilZero.uint_of_string s).

(** No promo with a (non-zero) usage limit has more uses than the limit. *)
Definition within_usage_limits (l : list PromoDoc) : Prop :=
  forall p lim,
    In p l -> usage_limit p = Some lim -> lim <> 0%Z ->
    (usage_count p <= lim)%Z.

(** The orders that a sequence of admissions, one after the other,
    returns, and the world they leave. *)
Fixpoint admit_all (py_str : Q -> string) (reqs : list (Env * OrderCreate))
    (w : World) : list OrderDoc * World :=
  match reqs with
  | [] => ([], w)
  | rq :: rest =>
      let (r, w1) := create_order py_str (fst rq) (snd rq) w in
      let (os, w2) := admit_all py_str rest w1 in
      (match r with Ok o => o :: os | _ => os end, w2)
  end.

(** [now] is neither before [valid_from] nor after [valid_to]. *)
Definition in_window (p : PromoDoc) (now : datetime) : bool :=
  negb (match valid_from p with Some d => dt_ltb now d | None => false end)
  && negb (match valid_to p with Some d => dt_ltb d now | None => false end).

(** * Properties *)

(** ** The monad *)

Lemma bind_ext {A B} (m1 m2 : M A) (k1 k2 : A -> M B) w :
  m1 w = m2 w ->
  (forall a w1, k1 a w1 = k2 a w1) ->
  bind m1 k1 w = bind m2 k2 w.
Proof.
  intros Hm Hk. unfold bind. rewrite Hm.
  destruct (m2 w) as [[a|c d|e] w1]; auto.
Qed.

Lemma bind_Ok {A B} (m : M A) (k : A -> M B) w a w1 :
  m w = (Ok a, w1) -> bind m k w = k a w1.
Proof. intros H. unfold bind. now rewrite H. Qed.

Lemma bind_HTTPException {A B} (m : M A) (k : A -> M B) w c d w1 :
  m w = (HTTPException c d, w1) -> bind m k w = (HTTPException c d, w1).
Proof. intros H. unfold bind. now rewrite H. Qed.

Lemma bind_Raised {A B} (m : M A) (k : A -> M B) w e w1 :
  m w = (Raised e, w1) -> bind m k w = (Raised e, w1).
Proof. intros H. unfold bind. now rewrite H. Qed.

Lemma bind_Ok_inv {A B} (m : M A) (k : A -> M B) w b w' :
  bind m k w = (Ok b, w') ->
  exists a w1, m w = (Ok a, w1) /\ k a w1 = (Ok b, w').
Proof.
  unfold bind. destruct (m w) as [[a|c d|e] w1]; intros H; try discriminate.
  now exists a, w1.
Qed.

(** ** [create_order] is the sequence of its steps *)

Lemma create_order_steps_eq py_str env data w :
  create_order py_str env data w = create_order_steps py_str env data w.
Proof.
  unfold create_order, create_order_steps.
  apply bind_ext; [|reflexivity].
  unfold check_delivery_minimum, below_delivery_minimum, delivery_message,
    delivery_threshold.
  destruct (order_type data =? "delivery")%string; cbn [andb]; [|reflexivity].
  unfold bind, gets.
  destruct (get (enabled (delivery w)) false); cbn [andb]; [|reflexivity].
  match goal with |- context [Qlt_bool 0 ?t && _] =>
    destruct (Qlt_bool 0 t && Qlt_bool (cart_subtotal data) t) end;
    reflexivity.
Qed.

(** ** The steps, one by one *)

Ltac run_route :=
  unfold bind, gets, modify, ret, raise, raise_http, try_pass in *;
  cbn beta iota in *.

Ltac break_match_hyp H :=
  repeat match type of H with
         | context [match ?x with _ => _ end] =>
             let E := fresh "E" in destruct x eqn:E; try discriminate H
         end.

Lemma check_delivery_minimum_pass py_str data w :
  below_delivery_minimum data w = false ->
  check_delivery_minimum py_str data w = (Ok tt, w).
Proof. intros H. unfold check_delivery_minimum. now rewrite H. Qed.

Lemma check_delivery_minimum_reject py_str data w :
  below_delivery_minimum data w = true ->
  check_delivery_minimum py_str data w
  = (HTTPException 400 (delivery_message py_str data w), w).
Proof. intros H. unfold check_delivery_minimum. now rewrite H. Qed.

(** Validation only reads: whatever it answers, the world is the same. *)
Lemma validate_promo_code_reads env c t w r w1 :
  validate_promo_code env c t w = (r, w1) -> w1 = w.
Proof.
  unfold validate_promo_code, promo_codes_find_one. run_route.
  destruct (connected w); cbn [negb]; [destruct (find_one_raises env)|];
    intros H; break_match_hyp H; inversion H; reflexivity.
Qed.

(** It answers, unless [find_one] raises. *)
Lemma validate_promo_code_answers env c t w :
  (exists r, validate_promo_code env c t w = (Ok r, w)) \/
  (validate_promo_code env c t w = (Raised PyMongoError, w)
   /\ connected w = true /\ find_one_raises env = true).
Proof.
  unfold validate_promo_code, promo_codes_find_one. run_route.
  destruct (connected w); cbn [negb].
  - destruct (find_one_raises env); [right; auto|]. left.
    repeat match goal with
           | |- context [match ?x with _ => _ end] => destruct x
           end; eexists; reflexivity.
  - left. destruct (find _ _); eexists; reflexivity.
Qed.

(** A promo that validation accepts is one of the store it searched. *)
Lemma validate_promo_code_Valid_In env c t w promo w1 :
  validate_promo_code env c t w = (Ok (Valid promo), w1) ->
  In promo (if connected w then promo_codes w else DEMO_PROMO_CODES w).
Proof.
  unfold validate_promo_code, promo_codes_find_one. run_route.
  destruct (connected w); cbn [negb].
  - destruct (find_one_raises env); [discriminate|].
    destruct (find _ (promo_codes w)) as [p|] eqn:F; [|discriminate].
    apply find_some in F. destruct F as [F _].
    intros H. break_match_hyp H. now inversion H; subst.
  - destruct (find _ (DEMO_PROMO_CODES w)) as [p|] eqn:F; [|discriminate].
    apply find_some in F. destruct F as [F _].
    intros H. now inversion H; subst.
Qed.

Lemma apply_promo_none env data w :
  truthy (promo_code data) = false ->
  apply_promo env data w = (Ok (0, None), w).
Proof. intros H. unfold apply_promo. now rewrite H. Qed.

Lemma apply_promo_Invalid env data w e :
  truthy (promo_code data) = true ->
  validate_promo_code env (code_given data) (cart_subtotal data) w
  = (Ok (Invalid e), w) ->
  apply_promo env data w = (Ok (0, None), w).
Proof.
  intros T V. unfold apply_promo. rewrite T.
  erewrite bind_Ok by exact V. reflexivity.
Qed.

Lemma apply_promo_Valid env data w promo :
  truthy (promo_code data) = true ->
  validate_promo_code env (code_given data) (cart_subtotal data) w
  = (Ok (Valid promo), w) ->
  apply_promo env data w
  = if connected w && update_one_raises env
    then (Raised PyMongoError, w)
    else (Ok (calculate_discount promo (cart_subtotal data), Some (code promo)),
          redeemed promo w).
Proof.
  intros T V. unfold apply_promo. rewrite T.
  erewrite bind_Ok by exact V.
  unfold redeemed, promo_codes_inc_usage. run_route.
  destruct (connected w); cbn [andb]; [|reflexivity].
  destruct (update_one_raises env); reflexivity.
Qed.

(** What [apply_promo] can have done when it returns. *)
Lemma apply_promo_Ok_inv env data w applied w1 :
  apply_promo env data w = (Ok applied, w1) ->
  (applied = (0, None) /\ w1 = w) \/
  (exists promo,
      truthy (promo_code data) = true /\
      validate_promo_code env (code_given data) (cart_subtotal data) w
      = (Ok (Valid promo), w) /\
      applied = (calculate_discount promo (cart_subtotal data), Some (code promo)) /\
      w1 = redeemed promo w).
Proof.
  intros H. destruct (truthy (promo_code data)) eqn:T.
  - destruct (validate_promo_code_answers env (code_given data)
                (cart_subtotal data) w) as [[r V]|[V _]].
    + destruct r as [promo|e].
      * rewrite (apply_promo_Valid _ _ _ _ T V) in H.
        destruct (connected w && update_one_raises env); [discriminate|].
        inversion H; subst. right. exists promo. auto.
      * rewrite (apply_promo_Invalid _ _ _ _ T V) in H.
        inversion H; subst. left. auto.
    + unfold apply_promo in H. rewrite T in H.
      erewrite bind_Raised in H by exact V. discriminate.
  - rewrite (apply_promo_none _ _ _ T) in H. inversion H; subst. left. auto.
Qed.

Lemma apply_promo_not_HTTPException env data w c d w1 :
  apply_promo env data w <> (HTTPException c d, w1).
Proof.
  intros H. destruct (truthy (promo_code data)) eqn:T.
  - destruct (validate_promo_code_answers env (code_given data)
                (cart_subtotal data) w) as [[r V]|[V _]].
    + destruct r as [promo|e].
      * rewrite (apply_promo_Valid _ _ _ _ T V) in H.
        destruct (connected w && update_one_raises env); discriminate.
      * rewrite (apply_promo_Invalid _ _ _ _ T V) in H. discriminate.
    + unfold apply_promo in H. rewrite T in H.
      erewrite bind_Raised in H by exact V. discriminate.
  - rewrite (apply_promo_none _ _ _ T) in H. discriminate.
Qed.

(** The allocator: what it returns and what it leaves behind. *)
Lemma generate_order_number_run env w :
  generate_order_number env w =
  if connected w then
    if count_documents_raises env then (Raised PyMongoError, w)
    else (Ok ("ORD-" ++ strftime_Ymd (utcnow_today env) ++ "-"
              ++ format_0d 3
                   (List.length
                      (filter (fun o => dt_geb (created_at o)
                                          (replace_hms0 (utcnow_midnight env)))
                              (orders w)))), w)
  else (Ok ("ORD-" ++ strftime_Ymd (utcnow_today env) ++ "-"
            ++ format_0d 3 (demo_order_counter w + 1)),
        with_demo_order_counter (demo_order_counter w + 1) w).
Proof.
  unfold generate_order_number, orders_count_since. run_route.
  destruct (connected w); [destruct (count_documents_raises env)|]; reflexivity.
Qed.

Lemma persist_run env doc w :
  persist env doc w =
  if connected w then
    if insert_one_raises env then (Raised PyMongoError, w)
    else
      let o := set_id (Some (inserted_id env))
                      (set_created_at (utcnow_insert env) doc) in
      (Ok o, with_orders (orders w ++ [o]) w)
  else
    let o := set_id (Some (str_nat (List.length (DEMO_ORDERS w) + 1))) doc in
    (Ok o, with_DEMO_ORDERS (o :: DEMO_ORDERS w) w).
Proof.
  unfold persist, orders_insert_one. run_route.
  destruct (connected w); cbn [negb]; [destruct (insert_one_raises env)|];
    reflexivity.
Qed.

Lemma publish_run env ch ev w :
  try_pass (publish env ch ev) w =
  (Ok tt, if publish_raises env then w
          else with_published (published w ++ [(ch, ev)]) w).
Proof.
  unfold try_pass, publish, raise, modify.
  destruct (publish_raises env); reflexivity.
Qed.

Lemma commit_order_run env data applied w :
  commit_order env data applied w =
  let doc := build_order_doc env data applied (order_number_in env w) in
  if connected w then
    if count_documents_raises env then (Raised PyMongoError, w)
    else if insert_one_raises env then (Raised PyMongoError, w)
    else
      let o := set_id (Some (inserted_id env))
                      (set_created_at (utcnow_insert env) doc) in
      (Ok o, after_publish env o (with_orders (orders w ++ [o]) w))
  else
    let o := set_id (Some (str_nat (List.length (DEMO_ORDERS w) + 1))) doc in
    (Ok o, after_publish env o
             (with_DEMO_ORDERS (o :: DEMO_ORDERS w)
                (with_demo_order_counter (demo_order_counter w + 1) w))).
Proof.
  unfold commit_order, order_number_in, after_publish.
  unfold bind at 1. rewrite generate_order_number_run.
  destruct (connected w) eqn:C.
  - destruct (count_documents_raises env); [reflexivity|].
    unfold bind at 1. rewrite persist_run, C.
    destruct (insert_one_raises env); [reflexivity|].
    cbv zeta. unfold bind, ret. rewrite publish_run. reflexivity.
  - unfold bind at 1. rewrite persist_run.
    cbn [connected with_demo_order_counter]. rewrite C.
    cbv zeta. unfold bind, ret. rewrite publish_run. reflexivity.
Qed.

(** The world and the order once [commit_order] returns. *)
Lemma commit_order_Ok_inv env data applied w o w' :
  commit_order env data applied w = (Ok o, w') ->
  subtotal o = cart_subtotal data /\
  discount_amount o = fst applied /\
  o_promo_code o = snd applied /\
  total o = cart_subtotal data - fst applied /\
  o_items o = items data /\
  status o = "new" /\
  payment_status o = "pending" /\
  connected w' = connected w /\
  promo_codes w' = promo_codes w /\
  DEMO_PROMO_CODES w' = DEMO_PROMO_CODES w /\
  (if connected w
   then orders w' = (orders w ++ [o])%list /\ DEMO_ORDERS w' = DEMO_ORDERS w
   else DEMO_ORDERS w' = o :: DEMO_ORDERS w /\ orders w' = orders w).
Proof.
  rewrite commit_order_run. cbv zeta. unfold after_publish.
  destruct (connected w) eqn:C.
  - destruct (count_documents_raises env); [discriminate|].
    destruct (insert_one_raises env); [discriminate|].
    intros H; inversion H; subst o w'; clear H.
    destruct (publish_raises env); cbn; rewrite ?C; repeat split; reflexivity.
  - intros H; inversion H; subst o w'; clear H.
    destruct (publish_raises env); cbn; rewrite ?C; repeat split; reflexivity.
Qed.

Lemma commit_order_not_HTTPException env data applied w c d w' :
  commit_order env data applied w <> (HTTPException c d, w').
Proof.
  rewrite commit_order_run. cbv zeta.
  destruct (connected w); [|discriminate].
  destruct (count_documents_raises env); [discriminate|].
  destruct (insert_one_raises env); discriminate.
Qed.

(** With the store answering, [commit_order] returns an order. *)
Lemma commit_order_returns env data applied w :
  connected w = false \/
  (count_documents_raises env = false /\ insert_one_raises env = false) ->
  exists o w', commit_order env data applied w = (Ok o, w').
Proof.
  intros H. rewrite commit_order_run. cbv zeta.
  destruct (connected w).
  - destruct H as [H|[H1 H2]]; [discriminate|]. rewrite H1, H2.
    eexists; eexists; reflexivity.
  - eexists; eexists; reflexivity.
Qed.

(** A returned order went through every step. *)
Lemma create_order_Ok_inv py_str env data w o w' :
  create_order py_str env data w = (Ok o, w') ->
  below_delivery_minimum data w = false /\
  exists applied w1,
    apply_promo env data w = (Ok applied, w1) /\
    commit_order env data applied w1 = (Ok o, w').
Proof.
  rewrite create_order_steps_eq. unfold create_order_steps. intros H.
  apply bind_Ok_inv in H. destruct H as ([] & w0 & D & H).
  unfold check_delivery_minimum in D.
  destruct (below_delivery_minimum data w); [discriminate|].
  inversion D; subst w0. split; [reflexivity|].
  apply bind_Ok_inv in H. destruct H as (applied & w1 & A & H).
  now exists applied, w1.
Qed.

(** ** Arithmetic of the amounts *)

Lemma Qlt_bool_iff x y : Qlt_bool x y = true <-> x < y.
Proof.
  unfold Qlt_bool. rewrite negb_true_iff. split; intros H.
  - apply Qnot_le_lt. intros L. apply Qle_bool_iff in L. congruence.
  - destruct (Qle_bool y x) eqn:E; [|reflexivity].
    apply Qle_bool_iff in E. exfalso. exact (Qlt_not_le _ _ H E).
Qed.

Lemma Qlt_bool_false_iff x y : Qlt_bool x y = false <-> y <= x.
Proof.
  unfold Qlt_bool. rewrite negb_false_iff. apply Qle_bool_iff.
Qed.

Lemma py_min_le_r a b : py_min a b <= b.
Proof.
  unfold py_min. destruct (Qlt_bool b a) eqn:E.
  - apply Qle_refl.
  - now apply Qlt_bool_false_iff in E.
Qed.

Lemma py_min_nonneg a b : 0 <= a -> 0 <= b -> 0 <= py_min a b.
Proof. intros Ha Hb. unfold py_min. now destruct (Qlt_bool b a). Qed.

(** [sum] over the items is the left fold of the route's generator. *)
Lemma fold_left_map_acc {A B C} (g : A -> B -> A) (f : C -> B) l : forall a,
  fold_left g (map f l) a = fold_left (fun acc x => g acc (f x)) l a.
Proof.
  induction l as [|x l IH]; intros a; [reflexivity|].
  cbn [map fold_left]. apply IH.
Qed.

Lemma cart_subtotal_fold data :
  cart_subtotal data
  = fold_left (fun acc item => acc + price item * inject_Z (qty item))
              (items data) 0.
Proof. unfold cart_subtotal, py_sum. apply fold_left_map_acc. Qed.

(** It reads the prices and the quantities of the items, nothing else. *)
Lemma cart_subtotal_prices data data2 :
  map (fun i => (price i, qty i)) (items data2)
  = map (fun i => (price i, qty i)) (items data) ->
  cart_subtotal data2 = cart_subtotal data.
Proof.
  intros H. unfold cart_subtotal. f_equal.
  transitivity (map (fun pq : Q * Z => fst pq * inject_Z (snd pq))
                    (map (fun i => (price i, qty i)) (items data2))).
  - now rewrite map_map.
  - rewrite H. now rewrite map_map.
Qed.

(** ** The admitted order *)

Lemma redeemed_keeps p w :
  connected (redeemed p w) = connected w /\
  orders (redeemed p w) = orders w /\
  DEMO_ORDERS (redeemed p w) = DEMO_ORDERS w /\
  DEMO_PROMO_CODES (redeemed p w) = DEMO_PROMO_CODES w /\
  demo_order_counter (redeemed p w) = demo_order_counter w /\
  published (redeemed p w) = published w.
Proof. unfold redeemed. destruct (connected w) eqn:C; cbn; auto 10. Qed.

Lemma apply_promo_keeps env data w applied w1 :
  apply_promo env data w = (Ok applied, w1) ->
  connected w1 = connected w /\
  orders w1 = orders w /\
  DEMO_ORDERS w1 = DEMO_ORDERS w /\
  DEMO_PROMO_CODES w1 = DEMO_PROMO_CODES w /\
  demo_order_counter w1 = demo_order_counter w /\
  published w1 = published w.
Proof.
  intros H. apply apply_promo_Ok_inv in H.
  destruct H as [[_ ->]|(p & _ & _ & _ & ->)]; [auto 10|apply redeemed_keeps].
Qed.

(** C10: every order that [create_order] returns has status "new" and
    payment status "pending", whatever the cart holds, and it is the
    document that was stored: the last of the orders collection or, in
    demo mode, the head of DEMO_ORDERS. *)
Theorem create_order_new_pending py_str env data w o w' :
  create_order py_str env data w = (Ok o, w') ->
  status o = "new" /\
  payment_status o = "pending" /\
  (if connected w
   then orders w' = (orders w ++ [o])%list
   else DEMO_ORDERS w' = o :: DEMO_ORDERS w).
Proof.
  intros H. apply create_order_Ok_inv in H.
  destruct H as (_ & applied & w1 & A & C).
  apply apply_promo_keeps in A. destruct A as (Kc & Ko & Kd & _).
  apply commit_order_Ok_inv in C.
  destruct C as (_ & _ & _ & _ & _ & S & P & _ & _ & _ & W).
  rewrite Kc, Ko, Kd in W.
  repeat split; [exact S|exact P|].
  destruct (connected w); tauto.
Qed.

Lemma create_order_new_pending_witness :
  exists o w',
    create_order str_whole quiet
      (cart [item "Latte" 2 50 []] "dine_in" None None) (shop true [])
    = (Ok o, w') /\
    status o = "new" /\ payment_status o = "pending" /\
    orders w' = [o].
Proof.
  assert (E : exists o w',
             create_order str_whole quiet
               (cart [item "Latte" 2 50 []] "dine_in" None None) (shop true [])
             = (Ok o, w'))
    by (vm_compute; eexists; eexists; reflexivity).
  destruct E as (o & w' & E). exists o, w'. split; [exact E|].
  exact (create_order_new_pending _ _ _ _ _ _ E).
Defined.

(** What a returned order keeps of the cart and of the promo step. *)
Lemma create_order_fields py_str env data w o w' :
  create_order py_str env data w = (Ok o, w') ->
  subtotal o = cart_subtotal data /\
  total o = subtotal o - discount_amount o /\
  o_items o = items data /\
  ((discount_amount o = 0 /\ o_promo_code o = None) \/
   (exists p,
       In p (if connected w then promo_codes w else DEMO_PROMO_CODES w) /\
       discount_amount o = calculate_discount p (cart_subtotal data) /\
       o_promo_code o = Some (code p))).
Proof.
  intros H. apply create_order_Ok_inv in H.
  destruct H as (_ & applied & w1 & A & C).
  apply commit_order_Ok_inv in C.
  destruct C as (S & D & P & T & I & _).
  split; [exact S|]. split; [now rewrite T, S, D|]. split; [exact I|].
  apply apply_promo_Ok_inv in A.
  destruct A as [[-> _]|(p & _ & V & -> & _)].
  - left. now rewrite D, P.
  - right. exists p. rewrite D, P.
    apply validate_promo_code_Valid_In in V. auto.
Qed.

(** C9 (as the code has it): the items of an admitted order are the
    items of the cart, in order and unchanged; nothing is checked about
    their number or their quantities, so the order has at least one item,
    each of quantity 1 or more, exactly when the cart does. *)
Theorem create_order_items py_str env data w o w' :
  create_order py_str env data w = (Ok o, w') ->
  o_items o = items data /\
  ((o_items o <> [] /\ Forall (fun i => (1 <= qty i)%Z) (o_items o)) <->
   (items data <> [] /\ Forall (fun i => (1 <= qty i)%Z) (items data))).
Proof.
  intros H. apply create_order_fields in H. destruct H as (_ & _ & I & _).
  rewrite I. split; [reflexivity|tauto].
Qed.

Lemma create_order_items_witness :
  exists o w',
    create_order str_whole quiet
      (cart [item "Latte" 2 50 []] "dine_in" None None) (shop true [])
    = (Ok o, w') /\
    o_items o = [item "Latte" 2 50 []].
Proof.
  assert (E : exists o w',
             create_order str_whole quiet
               (cart [item "Latte" 2 50 []] "dine_in" None None) (shop true [])
             = (Ok o, w'))
    by (vm_compute; eexists; eexists; reflexivity).
  destruct E as (o & w' & E). exists o, w'. split; [exact E|].
  exact (proj1 (create_order_items _ _ _ _ _ _ E)).
Defined.

(** C9, as stated, fails: the empty cart is admitted. *)
Lemma create_order_admits_empty_cart :
  ~ (forall o w',
        create_order str_whole quiet (cart [] "dine_in" None None) (shop true [])
        = (Ok o, w') ->
        o_items o <> [] /\ Forall (fun i => (1 <= qty i)%Z) (o_items o)).
Proof.
  intros H.
  assert (E : exists o w',
             create_order str_whole quiet (cart [] "dine_in" None None)
               (shop true []) = (Ok o, w') /\ o_items o = [])
    by (vm_compute; eexists; eexists; split; reflexivity).
  destruct E as (o & w' & E & I).
  destruct (H o w' E) as [N _]. exact (N I).
Qed.

(** C2 (as the code has it): the subtotal of an admitted order is the
    sum of price times quantity over the cart's items, added up from the
    left, from 0, in the order of the items, with no rounding step; the
    modifiers' price deltas are not in it: a cart whose items have the
    same prices and quantities is admitted with the same subtotal,
    whatever its modifiers. *)
Theorem create_order_subtotal py_str env data w o w' :
  create_order py_str env data w = (Ok o, w') ->
  subtotal o
  = fold_left (fun acc item => acc + price item * inject_Z (qty item))
              (items data) 0 /\
  forall env2 data2 w2 o2 w2',
    map (fun i => (price i, qty i)) (items data2)
    = map (fun i => (price i, qty i)) (items data) ->
    create_order py_str env2 data2 w2 = (Ok o2, w2') ->
    subtotal o2 = subtotal o.
Proof.
  intros H. apply create_order_fields in H. destruct H as (S & _).
  split.
  - rewrite S. apply cart_subtotal_fold.
  - intros env2 data2 w2 o2 w2' P H2.
    apply create_order_fields in H2. destruct H2 as (S2 & _).
    rewrite S, S2. now apply cart_subtotal_prices.
Qed.

Lemma create_order_subtotal_witness :
  exists o w' o2 w2',
    create_order str_whole quiet
      (cart [item "Latte" 2 50 []; item "Cake" 1 (7 # 2) []] "dine_in" None None)
      (shop true [])
    = (Ok o, w') /\
    create_order str_whole quiet
      (cart [item "Latte" 2 50
               [{| group_name := "Milk"; option_name := "Oat"; price_add := 5 |}];
             item "Cake" 1 (7 # 2) []] "takeaway" None None)
      (shop false [])
    = (Ok o2, w2') /\
    subtotal o = 0 + 50 * inject_Z 2 + (7 # 2) * inject_Z 1 /\
    subtotal o2 = subtotal o.
Proof.
  assert (E : exists o w' o2 w2',
             create_order str_whole quiet
               (cart [item "Latte" 2 50 []; item "Cake" 1 (7 # 2) []]
                     "dine_in" None None) (shop true [])
             = (Ok o, w') /\
             create_order str_whole quiet
               (cart [item "Latte" 2 50
                        [{| group_name := "Milk"; option_name := "Oat";
                            price_add := 5 |}];
                      item "Cake" 1 (7 # 2) []] "takeaway" None None)
               (shop false [])
             = (Ok o2, w2'))
    by (vm_compute; do 4 eexists; split; reflexivity).
  destruct E as (o & w' & o2 & w2' & E & E2). exists o, w', o2, w2'.
  split; [exact E|]. split; [exact E2|].
  destruct (create_order_subtotal _ _ _ _ _ _ E) as (S & I).
  split; [exact S|].
  apply (I quiet
           (cart [item "Latte" 2 50
                    [{| group_name := "Milk"; option_name := "Oat";
                        price_add := 5 |}];
                  item "Cake" 1 (7 # 2) []] "takeaway" None None)
           (shop false []) o2 w2').
  - reflexivity.
  - exact E2.
Defined.

(** C2, as stated, fails: a latte at 10 with a modifier of +5 is admitted
    with subtotal 10, not 15. *)
Lemma create_order_subtotal_ignores_modifiers :
  ~ (forall o w',
        create_order str_whole quiet
          (cart [item "Latte" 1 10
                   [{| group_name := "Milk"; option_name := "Oat";
                       price_add := 5 |}]] "dine_in" None None)
          (shop true [])
        = (Ok o, w') ->
        subtotal o ==
        spec_subtotal
          [item "Latte" 1 10
             [{| group_name := "Milk"; option_name := "Oat"; price_add := 5 |}]]).
Proof.
  intros H.
  assert (E : exists o w',
             create_order str_whole quiet
               (cart [item "Latte" 1 10
                        [{| group_name := "Milk"; option_name := "Oat";
                            price_add := 5 |}]] "dine_in" None None)
               (shop true [])
             = (Ok o, w') /\ subtotal o == 10)
    by (vm_compute; eexists; eexists; split; reflexivity).
  destruct E as (o & w' & E & S).
  specialize (H o w' E). rewrite S in H. vm_compute in H. discriminate.
Qed.

(** ** Discounts *)

(** C1 (as the code has it): an admitted order has
    total = subtotal - discount_amount.  The discount is 0 when no promo
    code is recorded.  When a code is recorded, the discount is
    [calculate_discount] of a promo with that code, from the store in
    use, on the subtotal: for a percentage promo that is
    round(subtotal * value / 100, 2), for which no bound is stated; for
    any other promo it is min(value, subtotal), so that
    0 <= discount_amount <= subtotal whenever the promo's value and the
    subtotal are not negative. *)
Theorem create_order_totals py_str env data w o w' :
  create_order py_str env data w = (Ok o, w') ->
  total o = subtotal o - discount_amount o /\
  (o_promo_code o = None -> discount_amount o = 0) /\
  (forall c,
      o_promo_code o = Some c ->
      exists p,
        In p (if connected w then promo_codes w else DEMO_PROMO_CODES w) /\
        code p = c /\
        discount_amount o = calculate_discount p (subtotal o) /\
        (discount_type p = "percentage"%string ->
         discount_amount o
         = py_round2 (subtotal o * discount_value p / 100)) /\
        (discount_type p <> "percentage"%string ->
         discount_amount o = py_min (discount_value p) (subtotal o) /\
         (0 <= discount_value p -> 0 <= subtotal o ->
          0 <= discount_amount o /\ discount_amount o <= subtotal o))).
Proof.
  intros H. apply create_order_fields in H.
  destruct H as (S & T & _ & D).
  split; [exact T|]. split.
  - intros N. destruct D as [[D _]|(p & _ & _ & P)]; [exact D|congruence].
  - intros c Hc. destruct D as [[_ N]|(p & I & D & P)]; [congruence|].
    exists p. split; [exact I|]. split; [congruence|].
    rewrite S, D. split; [reflexivity|]. unfold calculate_discount. split.
    + intros ->. now rewrite String.eqb_refl.
    + intros K. apply String.eqb_neq in K. rewrite K.
      split; [reflexivity|]. intros Hv Hs.
      split; [now apply py_min_nonneg|apply py_min_le_r].
Qed.

Lemma create_order_totals_witness :
  exists o w',
    create_order str_whole quiet
      (cart [item "Latte" 2 50 []] "dine_in" None (Some "off"))
      (shop true [promo "OFF" "fixed" 150 None true])
    = (Ok o, w') /\
    total o = subtotal o - discount_amount o /\
    discount_amount o = py_min 150 (subtotal o) /\
    0 <= discount_amount o /\ discount_amount o <= subtotal o.
Proof.
  assert (E : exists o w',
             create_order str_whole quiet
               (cart [item "Latte" 2 50 []] "dine_in" None (Some "off"))
               (shop true [promo "OFF" "fixed" 150 None true])
             = (Ok o, w') /\
             o_promo_code o = Some "OFF"%string /\ subtotal o == 100)
    by (vm_compute; eexists; eexists; repeat split; reflexivity).
  destruct E as (o & w' & E & C & S). exists o, w'. split; [exact E|].
  destruct (create_order_totals _ _ _ _ _ _ E) as (T & _ & P).
  split; [exact T|].
  destruct (P _ C) as (p & I & _ & _ & _ & F).
  destruct I as [<-|[]].
  destruct F as (M & B); [discriminate|].
  split; [exact M|]. apply B.
  - vm_compute. discriminate.
  - rewrite S. vm_compute. discriminate.
Defined.

(** C1, as stated, fails: a percentage promo of 150 on a subtotal of 100
    gives a discount of 150 and a total of -50. *)
Lemma create_order_discount_above_subtotal :
  ~ (forall o w',
        create_order str_whole quiet
          (cart [item "Latte" 2 50 []] "dine_in" None (Some "big"))
          (shop true [promo "BIG" "percentage" 150 None true])
        = (Ok o, w') ->
        total o == subtotal o - discount_amount o /\
        0 <= discount_amount o /\
        discount_amount o <= subtotal o).
Proof.
  intros H.
  assert (E : exists o w',
             create_order str_whole quiet
               (cart [item "Latte" 2 50 []] "dine_in" None (Some "big"))
               (shop true [promo "BIG" "percentage" 150 None true])
             = (Ok o, w') /\ discount_amount o == 150 /\ subtotal o == 100)
    by (vm_compute; eexists; eexists; repeat split; reflexivity).
  destruct E as (o & w' & E & D & S).
  destruct (H o w' E) as (_ & _ & L). rewrite D, S in L.
  vm_compute in L. now apply L.
Qed.

(** ** The delivery minimum *)

Lemma create_order_run py_str env data w :
  create_order py_str env data w =
  if below_delivery_minimum data w
  then (HTTPException 400 (delivery_message py_str data w), w)
  else bind (apply_promo env data) (commit_order env data) w.
Proof.
  rewrite create_order_steps_eq. unfold create_order_steps.
  destruct (below_delivery_minimum data w) eqn:B.
  - erewrite bind_HTTPException; [reflexivity|].
    now apply check_delivery_minimum_reject.
  - erewrite bind_Ok; [reflexivity|].
    now apply check_delivery_minimum_pass.
Qed.

(** Past the delivery check nothing raises an [HTTPException]. *)
Lemma priced_not_HTTPException env data w c d w' :
  bind (apply_promo env data) (commit_order env data) w
  <> (HTTPException c d, w').
Proof.
  unfold bind.
  destruct (apply_promo env data w) as [[applied|c0 d0|e] w1] eqn:A.
  - apply commit_order_not_HTTPException.
  - exfalso. exact (apply_promo_not_HTTPException _ _ _ _ _ _ A).
  - discriminate.
Qed.

Lemma below_delivery_minimum_iff data w :
  below_delivery_minimum data w = true <->
  order_type data = "delivery"%string /\
  get (enabled (delivery w)) false = true /\
  0 < delivery_threshold data w /\
  cart_subtotal data < delivery_threshold data w.
Proof.
  unfold below_delivery_minimum.
  rewrite !andb_true_iff, !Qlt_bool_iff, String.eqb_eq. tauto.
Qed.

(** C4: an admission of order type "delivery" is rejected exactly when
    delivery is enabled in the settings, the threshold (the out-of-city
    minimum for the zone "out_of_city", the standard minimum otherwise)
    is above 0 and the subtotal is strictly below it; the rejection is
    the status 400 with the settings' message in which "{amount}" is
    replaced by the threshold, and it leaves the world as it was: no
    order stored, no usage count incremented. *)
Theorem create_order_delivery_minimum py_str env data w :
  order_type data = "delivery"%string ->
  let threshold :=
    if is_str (delivery_zone data) "out_of_city"
    then get (min_order_amount_out_of_city (delivery w)) 0
    else get (ds_min_order_amount (delivery w)) 0 in
  ((exists c d, fst (create_order py_str env data w) = HTTPException c d) <->
   (get (enabled (delivery w)) false = true /\
    0 < threshold /\
    cart_subtotal data < threshold)) /\
  (forall c d,
      fst (create_order py_str env data w) = HTTPException c d ->
      c = 400%nat /\
      d = replace (get (min_order_message (delivery w)) default_min_order_message)
                  "{amount}" (py_str threshold) /\
      snd (create_order py_str env data w) = w).
Proof.
  intros T threshold. rewrite create_order_run.
  pose proof (below_delivery_minimum_iff data w) as B.
  fold (delivery_threshold data w) in threshold.
  destruct (below_delivery_minimum data w).
  - split.
    + split; [intros _; apply B; reflexivity|].
      intros _. now exists 400%nat, (delivery_message py_str data w).
    + cbn [fst snd]. intros c d E. inversion E. auto.
  - assert (N : forall c d,
               fst (bind (apply_promo env data) (commit_order env data) w)
               <> HTTPException c d).
    { intros c d E.
      destruct (bind (apply_promo env data) (commit_order env data) w)
        as [r w'] eqn:R.
      cbn [fst] in E. subst r. exact (priced_not_HTTPException _ _ _ _ _ _ R). }
    split.
    + split.
      * intros (c & d & E). exfalso. exact (N c d E).
      * intros (E1 & E2 & E3).
        assert (false = true); [|discriminate].
        apply B. auto.
    + intros c d E. exfalso. exact (N c d E).
Qed.

Lemma create_order_delivery_minimum_witness :
  exists c d,
    fst (create_order str_whole quiet
           (cart [item "Soup" 1 80 []] "delivery" (Some "in_city") None)
           (shop true []))
    = HTTPException c d /\
    c = 400%nat /\
    d = "Мінімальна сума для доставки: 100 грн" /\
    snd (create_order str_whole quiet
           (cart [item "Soup" 1 80 []] "delivery" (Some "in_city") None)
           (shop true []))
    = shop true [].
Proof.
  destruct (create_order_delivery_minimum str_whole quiet
              (cart [item "Soup" 1 80 []] "delivery" (Some "in_city") None)
              (shop true []) eq_refl) as [[_ R] D].
  destruct R as (c & d & E).
  - split; [reflexivity|]. split; vm_compute; reflexivity.
  - exists c, d. split; [exact E|].
    destruct (D c d E) as (C4 & M & W).
    split; [exact C4|]. split; [|exact W].
    rewrite M. vm_compute. reflexivity.
Defined.

(** ** Promo validation *)

(** Against the database the checks run in the specification's order; a
    usage limit of 0 is the one case set aside (the code reads it as no
    limit). *)
Lemma validate_promo_code_connected env c t w :
  connected w = true ->
  find_one_raises env = false ->
  (forall p, find (fun p => (code p =? upper c)%string) (promo_codes w) = Some p ->
             usage_limit p <> Some 0%Z) ->
  validate_promo_code env c t w
  = (Ok (spec_promo_check
           (find (fun p => (code p =? upper c)%string) (promo_codes w))
           (utcnow_validate env) t), w).
Proof.
  intros C F L. unfold validate_promo_code, promo_codes_find_one. run_route.
  rewrite C, F. cbn [negb]. unfold spec_promo_check.
  destruct (find _ (promo_codes w)) as [p|]; [|reflexivity].
  specialize (L p eq_refl).
  destruct (negb (is_active p)); [reflexivity|].
  destruct (match valid_from p with Some d => _ | None => false end);
    [reflexivity|].
  destruct (match valid_to p with Some d => _ | None => false end);
    [reflexivity|].
  destruct (usage_limit p) as [l|].
  - assert (Z : (l =? 0)%Z = false).
    { apply Z.eqb_neq. intros ->. now apply L. }
    rewrite Z. cbn [negb andb].
    destruct (l <=? usage_count p)%Z; [reflexivity|].
    destruct (Qlt_bool t (min_order_amount p)); reflexivity.
  - destruct (Qlt_bool t (min_order_amount p)); reflexivity.
Qed.

(** In demo mode only an active promo with the code is looked for. *)
Lemma validate_promo_code_demo env c t w :
  connected w = false ->
  exists r,
    validate_promo_code env c t w = (Ok r, w) /\
    match r with
    | Valid p =>
        In p (DEMO_PROMO_CODES w) /\ is_active p = true /\
        upper (code p) = upper c
    | Invalid e => e = PromoNotFound
    end.
Proof.
  intros C. unfold validate_promo_code. run_route. rewrite C. cbn [negb].
  destruct (find _ (DEMO_PROMO_CODES w)) as [p|] eqn:F.
  - exists (Valid p). split; [reflexivity|].
    apply find_some in F. destruct F as [I F].
    apply andb_true_iff in F. destruct F as [F A].
    apply String.eqb_eq in F. auto.
  - exists (Invalid PromoNotFound). auto.
Qed.





(** The case set aside above: with a usage limit of 0 the code accepts
    the promo, where the limit, taken as set, is reached. *)
Lemma validate_promo_code_limit_zero :
  fst (validate_promo_code quiet "off" 100
         (shop true [promo "OFF" "fixed" 10 (Some 0%Z) true]))
  = Ok (Valid (promo "OFF" "fixed" 10 (Some 0%Z) true)) /\
  spec_promo_check (Some (promo "OFF" "fixed" 10 (Some 0%Z) true)) noon 100
  = Invalid PromoUsageExceeded.
Proof. split; vm_compute; reflexivity. Qed.

(** ** The usage count and the stored order *)

Lemma usage_total_update_first c l :
  usage_total c (fst (update_first (fun p => (code p =? c)%string)
                                   inc_usage_count l))
  = (usage_total c l
     + if existsb (fun p => (code p =? c)%string) l then 1 else 0)%Z.
Proof.
  induction l as [|p l IH]; [reflexivity|].
  cbn [update_first existsb].
  destruct (code p =? c)%string eqn:E.
  - cbn [fst usage_total inc_usage_count code usage_count orb].
    rewrite E. lia.
  - destruct (update_first _ inc_usage_count l) as [l' m].
    cbn [fst] in *. cbn [usage_total orb]. rewrite E, IH. lia.
Qed.

Lemma usage_total_redeemed p w :
  connected w = true ->
  In p (promo_codes w) ->
  usage_total (code p) (promo_codes (redeemed p w))
  = (usage_total (code p) (promo_codes w) + 1)%Z.
Proof.
  intros C I. unfold redeemed. rewrite C. cbn [promo_codes with_promo_codes].
  rewrite usage_total_update_first.
  assert (X : existsb (fun q => (code q =? code p)%string) (promo_codes w) = true).
  { apply existsb_exists. exists p. split; [exact I|apply String.eqb_refl]. }
  now rewrite X.
Qed.

(** C6 (as the code has it).  In an admission with the database
    connected that redeems the promo [p], the usage count is incremented
    first and the order stored after it.  When the count of the day's
    orders and the insertion succeed, the order returned carries the code,
    is the one new document of the orders collection, and the code has one
    more use.  When one of them raises, the admission ends in that
    exception with no order stored and the use still counted: nothing
    undoes the increment.  When the increment itself raises, nothing has
    changed. *)
Theorem create_order_redeems_then_persists py_str env data w p :
  below_delivery_minimum data w = false ->
  truthy (promo_code data) = true ->
  validate_promo_code env (code_given data) (cart_subtotal data) w
  = (Ok (Valid p), w) ->
  connected w = true ->
  (update_one_raises env = false ->
   count_documents_raises env = false ->
   insert_one_raises env = false ->
   exists o w',
     create_order py_str env data w = (Ok o, w') /\
     o_promo_code o = Some (code p) /\
     orders w' = (orders w ++ [o])%list /\
     usage_total (code p) (promo_codes w')
     = (usage_total (code p) (promo_codes w) + 1)%Z) /\
  (update_one_raises env = false ->
   count_documents_raises env = true \/ insert_one_raises env = true ->
   exists w',
     create_order py_str env data w = (Raised PyMongoError, w') /\
     orders w' = orders w /\
     usage_total (code p) (promo_codes w')
     = (usage_total (code p) (promo_codes w) + 1)%Z) /\
  (update_one_raises env = true ->
   create_order py_str env data w = (Raised PyMongoError, w)).
Proof.
  intros B T V C.
  pose proof (validate_promo_code_Valid_In _ _ _ _ _ _ V) as I.
  rewrite C in I.
  pose proof (usage_total_redeemed p w C I) as U.
  destruct (redeemed_keeps p w) as (Kc & Ko & _).
  rewrite create_order_run, B.
  pose proof (apply_promo_Valid env data w p T V) as A. rewrite C in A.
  cbn [andb] in A.
  split; [|split].
  - intros Hu Hc Hi. rewrite Hu in A. erewrite bind_Ok by exact A.
    destruct (commit_order_returns env data
                (calculate_discount p (cart_subtotal data), Some (code p))
                (redeemed p w)) as (o & w' & R); [right; auto|].
    exists o, w'. split; [exact R|].
    apply commit_order_Ok_inv in R.
    destruct R as (_ & _ & P & _ & _ & _ & _ & _ & W & _ & O).
    rewrite Kc, C, Ko in O. destruct O as [O _].
    split; [exact P|]. split; [exact O|]. now rewrite W.
  - intros Hu Hf. rewrite Hu in A. erewrite bind_Ok by exact A.
    exists (redeemed p w). rewrite commit_order_run. cbv zeta.
    rewrite Kc, C. split; [|split; [exact Ko|exact U]].
    destruct (count_documents_raises env); [reflexivity|].
    destruct Hf as [Hf|Hf]; [discriminate|]. now rewrite Hf.
  - intros Hu. rewrite Hu in A. now erewrite bind_Raised by exact A.
Qed.

Lemma create_order_redeems_then_persists_witness :
  exists w',
    create_order str_whole insert_fails
      (cart [item "Latte" 2 500 []] "dine_in" None (Some "ten"))
      (shop true [promo "TEN" "percentage" 10 None true])
    = (Raised PyMongoError, w') /\
    orders w' = [] /\
    usage_total "TEN" (promo_codes w') = 1%Z.
Proof.
  destruct (create_order_redeems_then_persists str_whole insert_fails
              (cart [item "Latte" 2 500 []] "dine_in" None (Some "ten"))
              (shop true [promo "TEN" "percentage" 10 None true])
              (promo "TEN" "percentage" 10 None true)
              eq_refl eq_refl eq_refl eq_refl) as (_ & F & _).
  destruct (F eq_refl (or_intror eq_refl)) as (w' & R & O & U).
  exists w'. split; [exact R|]. split; [exact O|exact U].
Defined.

(** C6, as stated, fails: when [insert_one] raises after the promo TEN
    was accepted, the admission fails and the code has one use more. *)
Lemma create_order_charges_promo_without_order :
  ~ (forall e w',
        create_order str_whole insert_fails
          (cart [item "Latte" 2 500 []] "dine_in" None (Some "ten"))
          (shop true [promo "TEN" "percentage" 10 None true])
        = (Raised e, w') ->
        promo_codes w'
        = promo_codes (shop true [promo "TEN" "percentage" 10 None true])).
Proof.
  intros H.
  assert (E : exists w',
             create_order str_whole insert_fails
               (cart [item "Latte" 2 500 []] "dine_in" None (Some "ten"))
               (shop true [promo "TEN" "percentage" 10 None true])
             = (Raised PyMongoError, w') /\
             usage_total "TEN" (promo_codes w') = 1%Z)
    by (vm_compute; eexists; split; reflexivity).
  destruct E as (w' & E & U).
  rewrite (H _ _ E) in U. vm_compute in U. discriminate.
Qed.

(** ** Order numbers *)

Lemma length_zeros n : String.length (zeros n) = n.
Proof. induction n; cbn; congruence. Qed.

Lemma length_append (a b : string) :
  String.length (a ++ b) = (String.length a + String.length b)%nat.
Proof. induction a; cbn; congruence. Qed.

(** The ordinal has at least [width] digits, and is the number itself
    once that has as many. *)
Lemma format_0d_length width n : (width <= String.length (format_0d width n))%nat.
Proof.
  unfold format_0d. cbv zeta. rewrite length_append, length_zeros. lia.
Qed.

Lemma format_0d_wide width n :
  (width <= String.length (str_nat n))%nat -> format_0d width n = str_nat n.
Proof.
  intros H. unfold format_0d. cbv zeta.
  replace (width - String.length (str_nat n))%nat with 0%nat by lia.
  reflexivity.
Qed.

Example format_0d_7 : format_0d 3 7 = "007".
Proof. reflexivity. Qed.

Example format_0d_1234 : format_0d 3 1234 = "1234".
Proof. reflexivity. Qed.

(** C3 (the code at the failing input): with the database connected and
    no order yet today, the allocator counts 0 orders and returns the
    ordinal 000, where the count plus one is 001; demo mode, which
    increments its counter before using it, starts at 001. *)
Theorem generate_order_number_first_of_day :
  generate_order_number quiet (shop true [])
  = (Ok "ORD-20240101-000", shop true []) /\
  fst (generate_order_number quiet (shop false [])) = Ok "ORD-20240101-001".
Proof. split; vm_compute; reflexivity. Qed.

(** C7 (the code at the failing input): two admissions, one after the
    other on 1 January 2024, at 00:00:00.100 and at 00:00:01.500.  The
    second counts the orders from 00:00:00.500 on, the microsecond of its
    own clock being kept in the bound, finds none, and hands out the
    number of the first again.  (Both instants are whole milliseconds,
    the precision the store keeps.  From the order number to the
    insertion the route never awaits, so the requests of one process run
    this part one after the other, as here.) *)
Theorem sequential_admissions_share_order_number :
  exists o1 w1 o2 w2,
    create_order str_whole
      (at_time (mkdt 2024 1 1 0 0 0 100000) "65a000000000000000000001")
      (cart [item "Latte" 1 50 []] "dine_in" None None) (shop true [])
    = (Ok o1, w1) /\
    create_order str_whole
      (at_time (mkdt 2024 1 1 0 0 1 500000) "65a000000000000000000002")
      (cart [item "Cake" 1 70 []] "dine_in" None None) w1
    = (Ok o2, w2) /\
    orders w2 = [o1; o2] /\
    same_day (created_at o1) (created_at o2) /\
    order_number o1 = "ORD-20240101-000" /\
    order_number o2 = "ORD-20240101-000".
Proof.
  vm_compute. do 4 eexists.
  split; [reflexivity|]. split; [reflexivity|]. repeat split; reflexivity.
Qed.

(** ** Status and payment updates *)

(** A status update that returns has handed exactly one [order_updated]
    event, with the identifier and the new status, to the bus (when the
    bus takes it). *)
Lemma update_order_status_publishes ObjectId env order_id status w r w' :
  update_order_status ObjectId env order_id status w = (Ok r, w') ->
  published w'
  = if publish_raises env then published w
    else (published w ++ [(CHANNEL_ORDERS_NEW, order_updated order_id status)])%list.
Proof.
  unfold update_order_status.
  destruct (negb (mem status valid_statuses)); [discriminate|].
  intros H. apply bind_Ok_inv in H. destruct H as (db & w0 & G & H).
  unfold gets in G. inversion G; subst db w0. clear G.
  apply bind_Ok_inv in H. destruct H as ([] & w1 & U & H).
  apply bind_Ok_inv in H. destruct H as ([] & w2 & P & H).
  unfold ret in H. inversion H; subst r w2. clear H.
  rewrite publish_run in P. inversion P as [W]. clear P.
  assert (K : published w1 = published w).
  { destruct (connected w); cbn [negb] in U.
    - destruct (ObjectId order_id) as [oid|]; [|discriminate].
      unfold orders_update_one in U.
      destruct (update_one_raises env); [discriminate|].
      run_route.
      destruct (negb (snd (update_first (has_id oid) (set_status status)
                                        (orders w)))); [discriminate|].
      inversion U; subst w1. reflexivity.
    - unfold modify in U. inversion U; subst w1. reflexivity. }
  destruct (publish_raises env); cbn; now rewrite K.
Qed.

(** A payment update, whatever it returns, leaves the bus as it was. *)
Lemma update_payment_status_silent ObjectId env order_id payment w r w' :
  update_payment_status ObjectId env order_id payment w = (r, w') ->
  published w' = published w.
Proof.
  unfold update_payment_status, orders_update_one. run_route.
  destruct (negb (mem payment ["pending"%string; "paid"%string])).
  - intros H; inversion H; reflexivity.
  - destruct (connected w); cbn [negb].
    + destruct (ObjectId order_id) as [oid|].
      * destruct (update_one_raises env).
        -- intros H; inversion H; reflexivity.
        -- destruct (negb (snd (update_first (has_id oid)
                                   (set_payment_status payment) (orders w))));
             intros H; inversion H; reflexivity.
      * intros H; inversion H; reflexivity.
    + intros H; inversion H; reflexivity.
Qed.

(** C8 (the code at the failing input): an order is admitted and is then
    marked paid.  The payment update returns "updated" and the stored
    order is paid, but the bus holds what it held before, the [new_order]
    event alone; the status update of the same order does publish
    [order_updated] with the identifier and the status, and no order
    body. *)
Theorem update_payment_status_publishes_nothing :
  exists o w1 w2 w3,
    create_order str_whole quiet
      (cart [item "Latte" 1 50 []] "dine_in" None None) (shop true [])
    = (Ok o, w1) /\
    update_payment_status ObjectId_24 quiet "65a000000000000000000001" "paid" w1
    = (Ok "updated", w2) /\
    map payment_status (orders w2) = ["paid"] /\
    published w2 = published w1 /\
    published w1 = [(CHANNEL_ORDERS_NEW, new_order o)] /\
    update_order_status ObjectId_24 quiet "65a000000000000000000001" "ready" w1
    = (Ok "updated", w3) /\
    published w3
    = [(CHANNEL_ORDERS_NEW, new_order o);
       (CHANNEL_ORDERS_NEW, order_updated "65a000000000000000000001" "ready")].
Proof.
  vm_compute. do 4 eexists.
  split; [reflexivity|]. split; [reflexivity|].
  split; [reflexivity|]. split; [reflexivity|].
  split; [reflexivity|]. split; reflexivity.
Qed.

(** * Further properties of the routes *)

(** ** Every outcome of [create_order] *)

Lemma apply_promo_outcome env data w r w1 :
  apply_promo env data w = (r, w1) ->
  (w1 = w /\ (r = Ok (0, None) \/ r = Raised PyMongoError)) \/
  (exists p,
      truthy (promo_code data) = true /\
      validate_promo_code env (code_given data) (cart_subtotal data) w
      = (Ok (Valid p), w) /\
      r = Ok (calculate_discount p (cart_subtotal data), Some (code p)) /\
      w1 = redeemed p w).
Proof.
  intros H. destruct (truthy (promo_code data)) eqn:T.
  - destruct (validate_promo_code_answers env (code_given data)
                (cart_subtotal data) w) as [[v V]|[V _]].
    + destruct v as [p|e].
      * rewrite (apply_promo_Valid _ _ _ _ T V) in H.
        destruct (connected w && update_one_raises env).
        -- inversion H; subst. left. auto.
        -- inversion H; subst. right. exists p. auto.
      * rewrite (apply_promo_Invalid _ _ _ _ T V) in H.
        inversion H; subst. left. auto.
    + unfold apply_promo in H. rewrite T in H.
      erewrite bind_Raised in H by exact V. inversion H; subst. left. auto.
  - rewrite (apply_promo_none _ _ _ T) in H. inversion H; subst. left. auto.
Qed.

(** The world [w] with the document [o] stored as [commit_order] stores
    it, before the event is published. *)
Lemma commit_order_outcome env data applied w r w' :
  commit_order env data applied w = (r, w') ->
  (r = Raised PyMongoError /\ w' = w /\ connected w = true /\
   (count_documents_raises env = true \/ insert_one_raises env = true)) \/
  (exists o,
      r = Ok o /\
      connected w' = connected w /\
      promo_codes w' = promo_codes w /\
      DEMO_PROMO_CODES w' = DEMO_PROMO_CODES w /\
      delivery w' = delivery w /\
      published w'
      = (if publish_raises env then published w
         else (published w ++ [(CHANNEL_ORDERS_NEW, new_order o)])%list) /\
      (if connected w
       then orders w' = (orders w ++ [o])%list /\
            DEMO_ORDERS w' = DEMO_ORDERS w /\
            demo_order_counter w' = demo_order_counter w
       else DEMO_ORDERS w' = o :: DEMO_ORDERS w /\
            orders w' = orders w /\
            demo_order_counter w' = (demo_order_counter w + 1)%nat)).
Proof.
  rewrite commit_order_run. cbv zeta. unfold after_publish.
  destruct (connected w) eqn:C.
  - destruct (count_documents_raises env) eqn:Hc.
    { intros H; inversion H; subst. left. auto. }
    destruct (insert_one_raises env) eqn:Hi.
    { intros H; inversion H; subst. left. auto. }
    intros H; inversion H; subst r w'; clear H. right.
    eexists. split; [reflexivity|].
    destruct (publish_raises env); cbn; rewrite ?C; auto 10.
  - intros H; inversion H; subst r w'; clear H. right.
    eexists. split; [reflexivity|].
    destruct (publish_raises env); cbn; rewrite ?C; auto 10.
Qed.

Lemma create_order_outcome py_str env data w r w' :
  create_order py_str env data w = (r, w') ->
  (below_delivery_minimum data w = true /\
   r = HTTPException 400 (delivery_message py_str data w) /\ w' = w) \/
  (below_delivery_minimum data w = false /\
   exists ra w1,
     apply_promo env data w = (ra, w1) /\
     ((ra = Raised PyMongoError /\ r = Raised PyMongoError /\ w' = w1) \/
      (exists applied,
          ra = Ok applied /\ commit_order env data applied w1 = (r, w')))).
Proof.
  rewrite create_order_run.
  destruct (below_delivery_minimum data w).
  - intros H; inversion H; subst. left. auto.
  - intros H. right. split; [reflexivity|].
    unfold bind in H.
    destruct (apply_promo env data w) as [[applied|c d|e] w1] eqn:A.
    + exists (Ok applied), w1. split; [reflexivity|]. right. eauto.
    + exfalso. exact (apply_promo_not_HTTPException _ _ _ _ _ _ A).
    + pose proof (apply_promo_outcome _ _ _ _ _ A) as O.
      destruct O as [[_ [O|O]]|(p & _ & _ & O & _)]; try discriminate.
      inversion O; subst e. inversion H; subst r w'.
      exists (Raised PyMongoError), w1. split; [reflexivity|]. left. auto.
Qed.

Lemma redeemed_delivery p w : delivery (redeemed p w) = delivery w.
Proof. unfold redeemed. now destruct (connected w). Qed.

Lemma redeemed_demo p w : connected w = false -> redeemed p w = w.
Proof. intros C. unfold redeemed. now rewrite C. Qed.

(** What the promo step leaves of the world, whatever it returns. *)
Lemma apply_promo_world env data w r w1 :
  apply_promo env data w = (r, w1) ->
  connected w1 = connected w /\ orders w1 = orders w /\
  DEMO_ORDERS w1 = DEMO_ORDERS w /\
  DEMO_PROMO_CODES w1 = DEMO_PROMO_CODES w /\
  demo_order_counter w1 = demo_order_counter w /\
  published w1 = published w /\ delivery w1 = delivery w.
Proof.
  intros H. apply apply_promo_outcome in H.
  destruct H as [[-> _]|(p & _ & _ & _ & ->)]; [auto 10|].
  destruct (redeemed_keeps p w) as (? & ? & ? & ? & ? & ?).
  pose proof (redeemed_delivery p w). auto 10.
Qed.

(** X1: [create_order] raises an [HTTPException] only for an order of
    type "delivery" while delivery is enabled in the settings; an order of
    any other type is never rejected. *)
Theorem create_order_rejects_only_delivery py_str env data w c d :
  fst (create_order py_str env data w) = HTTPException c d ->
  order_type data = "delivery"%string /\
  get (enabled (delivery w)) false = true.
Proof.
  destruct (create_order py_str env data w) as [r w'] eqn:E. cbn [fst].
  intros ->. apply create_order_outcome in E.
  destruct E as [(B & _)|(_ & ra & w1 & A & [(_ & R & _)|(applied & _ & C)])].
  - apply below_delivery_minimum_iff in B. tauto.
  - discriminate.
  - exfalso. exact (commit_order_not_HTTPException _ _ _ _ _ _ _ C).
Qed.

Lemma create_order_rejects_only_delivery_witness :
  order_type (cart [item "Soup" 1 80 []] "delivery" (Some "in_city") None)
  = "delivery"%string /\
  get (enabled (delivery (shop true []))) false = true.
Proof.
  apply (create_order_rejects_only_delivery str_whole quiet
           (cart [item "Soup" 1 80 []] "delivery" (Some "in_city") None)
           (shop true []) 400%nat "Мінімальна сума для доставки: 100 грн").
  vm_compute. reflexivity.
Defined.

(** X2: an admission that returns an order has handed exactly one
    [new_order] event, carrying that order, to the bus, or none when the
    bus refuses it; an admission that fails has published nothing. *)
Theorem create_order_publishes_once py_str env data w r w' :
  create_order py_str env data w = (r, w') ->
  published w'
  = match r with
    | Ok o =>
        if publish_raises env then published w
        else (published w ++ [(CHANNEL_ORDERS_NEW, new_order o)])%list
    | _ => published w
    end.
Proof.
  intros E. apply create_order_outcome in E.
  destruct E as [(_ & -> & ->)|(_ & ra & w1 & A & E)]; [reflexivity|].
  apply apply_promo_world in A. destruct A as (_ & _ & _ & _ & _ & P & _).
  destruct E as [(_ & -> & ->)|(applied & _ & C)]; [exact P|].
  apply commit_order_outcome in C.
  destruct C as [(-> & -> & _)|(o & -> & _ & _ & _ & _ & Q & _)];
    [exact P|]. now rewrite Q, P.
Qed.

Lemma create_order_publishes_once_witness :
  exists o w',
    create_order str_whole quiet
      (cart [item "Latte" 2 50 []] "dine_in" None None) (shop true [])
    = (Ok o, w') /\
    published w' = [(CHANNEL_ORDERS_NEW, new_order o)].
Proof.
  assert (E : exists o w',
             create_order str_whole quiet
               (cart [item "Latte" 2 50 []] "dine_in" None None) (shop true [])
             = (Ok o, w'))
    by (vm_compute; eexists; eexists; reflexivity).
  destruct E as (o & w' & E). exists o, w'. split; [exact E|].
  exact (create_order_publishes_once _ _ _ _ _ _ E).
Defined.

(** X3: a bus that refuses the message changes nothing else: the
    admission returns what it returns with a working bus, and ends in the
    same world but for the message. *)
Theorem create_order_bus_down py_str env data w :
  fst (create_order py_str (bus_down env) data w)
  = fst (create_order py_str env data w) /\
  snd (create_order py_str (bus_down env) data w)
  = with_published (published w) (snd (create_order py_str env data w)).
Proof.
  rewrite !create_order_run.
  destruct (below_delivery_minimum data w).
  { cbn [fst snd]. split; [reflexivity|]. now destruct w. }
  assert (A : apply_promo (bus_down env) data w = apply_promo env data w)
    by reflexivity.
  unfold bind. rewrite A.
  destruct (apply_promo env data w) as [[applied|c d|e] w1] eqn:E.
  - apply apply_promo_world in E. destruct E as (_ & _ & _ & _ & _ & P & _).
    rewrite !commit_order_run. cbv zeta. unfold after_publish, order_number_in.
    cbn [bus_down publish_raises count_documents_raises insert_one_raises
         utcnow_today utcnow_midnight utcnow_insert utcnow_doc inserted_id].
    rewrite <- P.
    destruct (connected w1).
    + destruct (count_documents_raises env);
        [cbn [fst snd]; split; [reflexivity|now destruct w1]|].
      destruct (insert_one_raises env);
        [cbn [fst snd]; split; [reflexivity|now destruct w1]|].
      destruct (publish_raises env); cbn [fst snd]; split; reflexivity.
    + destruct (publish_raises env); cbn [fst snd]; split; reflexivity.
  - exfalso. exact (apply_promo_not_HTTPException _ _ _ _ _ _ E).
  - apply apply_promo_world in E. destruct E as (_ & _ & _ & _ & _ & P & _).
    cbn [fst snd]. split; [reflexivity|]. rewrite <- P. now destruct w1.
Qed.

(** ** The promo stores across an admission *)

Lemma map_code_update_first f l :
  map code (fst (update_first f inc_usage_count l)) = map code l.
Proof.
  induction l as [|q l IH]; [reflexivity|]. cbn [update_first].
  destruct (f q); [reflexivity|].
  destruct (update_first f inc_usage_count l) as [l' m]. cbn [fst] in *.
  cbn [map]. now rewrite IH.
Qed.

Lemma usage_total_update_other c c' l :
  c <> c' ->
  usage_total c (fst (update_first (fun p => (code p =? c')%string)
                                   inc_usage_count l))
  = usage_total c l.
Proof.
  intros N. induction l as [|q l IH]; [reflexivity|]. cbn [update_first].
  destruct (code q =? c')%string eqn:E.
  - apply String.eqb_eq in E. cbn [fst usage_total inc_usage_count code].
    assert (X : (code q =? c)%string = false)
      by (apply String.eqb_neq; congruence).
    now rewrite X.
  - destruct (update_first _ inc_usage_count l) as [l' m]. cbn [fst] in *.
    cbn [usage_total]. now rewrite IH.
Qed.

(** Where the promo stores can have gone, whatever the admission
    returns. *)
Lemma create_order_promo_stores py_str env data w r w' :
  create_order py_str env data w = (r, w') ->
  DEMO_PROMO_CODES w' = DEMO_PROMO_CODES w /\
  (promo_codes w' = promo_codes w \/
   exists p,
     connected w = true /\
     validate_promo_code env (code_given data) (cart_subtotal data) w
     = (Ok (Valid p), w) /\
     promo_codes w' = promo_codes (redeemed p w) /\
     forall o, r = Ok o -> o_promo_code o = Some (code p)).
Proof.
  intros E. apply create_order_outcome in E.
  destruct E as [(_ & _ & ->)|(_ & ra & w1 & A & E)]; [auto|].
  pose proof (apply_promo_world _ _ _ _ _ A) as (_ & _ & _ & D & _).
  assert (S : DEMO_PROMO_CODES w' = DEMO_PROMO_CODES w1 /\
              promo_codes w' = promo_codes w1 /\
              forall o, r = Ok o ->
                        exists applied, ra = Ok applied /\
                                        o_promo_code o = snd applied).
  { destruct E as [(_ & -> & ->)|(applied & -> & C)].
    - repeat split; try reflexivity. discriminate.
    - pose proof (commit_order_outcome _ _ _ _ _ _ C) as O.
      destruct O as [(-> & -> & _)|(o & -> & _ & P & Q & _)].
      + repeat split; try reflexivity. discriminate.
      + repeat split; auto. intros o' Ho. inversion Ho; subst o'.
        exists applied. split; [reflexivity|].
        apply commit_order_Ok_inv in C. tauto. }
  destruct S as (S1 & S2 & S3). split; [congruence|].
  apply apply_promo_outcome in A.
  destruct A as [[-> _]|(p & _ & V & -> & ->)]; [left; exact S2|].
  destruct (connected w) eqn:C.
  - right. exists p. repeat split; auto.
    intros o Ho. destruct (S3 o Ho) as (applied & Ha & Hp).
    inversion Ha; subst applied. exact Hp.
  - left. rewrite S2. now rewrite redeemed_demo.
Qed.

(** X4: whatever an admission returns, it leaves every promo code in
    place, the demo promo list untouched, and the uses recorded for any
    code [c] either as they were or one higher; they are as they were in
    demo mode, and when the order returned does not carry [c]. *)
Theorem create_order_counts_at_most_one_use py_str env data w r w' c :
  create_order py_str env data w = (r, w') ->
  DEMO_PROMO_CODES w' = DEMO_PROMO_CODES w /\
  map code (promo_codes w') = map code (promo_codes w) /\
  (usage_total c (promo_codes w') = usage_total c (promo_codes w) \/
   usage_total c (promo_codes w') = (usage_total c (promo_codes w) + 1)%Z) /\
  (connected w = false -> promo_codes w' = promo_codes w) /\
  (forall o, r = Ok o -> o_promo_code o <> Some c ->
             usage_total c (promo_codes w') = usage_total c (promo_codes w)).
Proof.
  intros E. apply create_order_promo_stores in E.
  destruct E as (D & [S|(p & C & V & S & P)]).
  { rewrite S. repeat split; auto. }
  split; [exact D|]. rewrite S. unfold redeemed. rewrite C.
  cbn [promo_codes with_promo_codes].
  split; [apply map_code_update_first|]. split; [|split].
  - destruct (String.eqb_spec c (code p)) as [->|N].
    + rewrite usage_total_update_first.
      destruct (existsb _ (promo_codes w)); [right|left]; lia.
    + left. now apply usage_total_update_other.
  - congruence.
  - intros o Ho N. apply usage_total_update_other.
    intros ->. apply N. now apply P.
Qed.

Lemma create_order_counts_at_most_one_use_witness :
  exists o w',
    create_order str_whole quiet
      (cart [item "Latte" 2 500 []] "dine_in" None (Some "ten"))
      (shop true [promo "TEN" "percentage" 10 None true;
                  promo "OFF" "fixed" 10 None true])
    = (Ok o, w') /\
    map code (promo_codes w') = ["TEN"; "OFF"]%string /\
    usage_total "OFF" (promo_codes w') = 0%Z.
Proof.
  assert (E : exists o w',
             create_order str_whole quiet
               (cart [item "Latte" 2 500 []] "dine_in" None (Some "ten"))
               (shop true [promo "TEN" "percentage" 10 None true;
                           promo "OFF" "fixed" 10 None true])
             = (Ok o, w') /\ o_promo_code o = Some "TEN"%string)
    by (vm_compute; eexists; eexists; split; reflexivity).
  destruct E as (o & w' & E & P). exists o, w'. split; [exact E|].
  destruct (create_order_counts_at_most_one_use _ _ _ _ _ _ "OFF"%string E)
    as (_ & M & _ & _ & U).
  split; [exact M|].
  rewrite (U o eq_refl); [reflexivity|].
  rewrite P. discriminate.
Defined.

(** Against the database, an accepted promo is the first document with
    the code, and it has a use left. *)
Lemma validate_promo_code_Valid_connected env c t w p w1 :
  connected w = true ->
  validate_promo_code env c t w = (Ok (Valid p), w1) ->
  find (fun q => (code q =? upper c)%string) (promo_codes w) = Some p /\
  is_active p = true /\
  (forall lim, usage_limit p = Some lim -> lim <> 0%Z ->
               (usage_count p < lim)%Z) /\
  min_order_amount p <= t.
Proof.
  intros C. unfold validate_promo_code, promo_codes_find_one. run_route.
  rewrite C. cbn [negb].
  destruct (find_one_raises env); [discriminate|].
  destruct (find _ (promo_codes w)) as [q|]; [|discriminate].
  destruct (negb (is_active q)) eqn:A; [discriminate|].
  destruct (match valid_from q with Some d => _ | None => false end);
    [discriminate|].
  destruct (match valid_to q with Some d => _ | None => false end);
    [discriminate|].
  destruct (match usage_limit q with Some l => _ | None => false end) eqn:L;
    [discriminate|].
  destruct (Qlt_bool t (min_order_amount q)) eqn:Q; [discriminate|].
  intros H. inversion H; subst q w1.
  split; [reflexivity|]. split; [now apply negb_false_iff in A|].
  split; [|now apply Qlt_bool_false_iff].
  intros lim Hl Hn. rewrite Hl in L.
  apply andb_false_iff in L. destruct L as [L|L].
  - apply negb_false_iff, Z.eqb_eq in L. contradiction.
  - apply Z.leb_gt in L. exact L.
Qed.

(** [update_one] changes the document that [find_one] returns. *)
Lemma update_first_find {A} (f : A -> bool) (g : A -> A) l p :
  find f l = Some p ->
  exists l1 l2,
    l = (l1 ++ p :: l2)%list /\
    fst (update_first f g l) = (l1 ++ g p :: l2)%list.
Proof.
  induction l as [|x l IH]; [discriminate|]. cbn [find update_first].
  destruct (f x) eqn:E.
  - intros H. inversion H; subst x. now exists [], l.
  - intros H. destruct (IH H) as (l1 & l2 & -> & U).
    destruct (update_first f g (l1 ++ p :: l2)) as [l' m]. cbn [fst] in *.
    subst l'. now exists (x :: l1), l2.
Qed.

(** X5: admissions keep the usage limits: if no promo with a non-zero
    usage limit has more uses than its limit before an admission, none
    has after it, whatever the admission returns. *)
Theorem create_order_keeps_usage_limits py_str env data w r w' :
  within_usage_limits (promo_codes w) ->
  create_order py_str env data w = (r, w') ->
  within_usage_limits (promo_codes w').
Proof.
  intros I E. apply create_order_promo_stores in E.
  destruct E as (_ & [->|(p & C & V & -> & _)]); [exact I|].
  apply (validate_promo_code_Valid_connected _ _ _ _ _ _ C) in V.
  destruct V as (F & _ & L & _).
  pose proof (find_some _ _ F) as [_ K]. apply String.eqb_eq in K.
  unfold redeemed. rewrite C, K. cbn [promo_codes with_promo_codes].
  destruct (update_first_find _ inc_usage_count _ _ F) as (l1 & l2 & S & U).
  rewrite U. intros q lim Hq Hl Hn.
  assert (Old : forall x, In x (l1 ++ p :: l2) -> In x (promo_codes w))
    by (intros x Hx; now rewrite S).
  apply in_app_or in Hq. destruct Hq as [Hq|[<-|Hq]].
  - apply (I q lim); auto. apply Old, in_or_app. auto.
  - cbn [inc_usage_count usage_count usage_limit] in *.
    specialize (L lim Hl Hn). lia.
  - apply (I q lim); auto. apply Old, in_or_app. right. now right.
Qed.

Lemma create_order_keeps_usage_limits_witness :
  exists o w',
    create_order str_whole quiet
      (cart [item "Latte" 2 500 []] "dine_in" None (Some "ten"))
      (shop true [promo "TEN" "percentage" 10 (Some 1%Z) true])
    = (Ok o, w') /\
    within_usage_limits (promo_codes w').
Proof.
  assert (E : exists o w',
             create_order str_whole quiet
               (cart [item "Latte" 2 500 []] "dine_in" None (Some "ten"))
               (shop true [promo "TEN" "percentage" 10 (Some 1%Z) true])
             = (Ok o, w'))
    by (vm_compute; eexists; eexists; reflexivity).
  destruct E as (o & w' & E). exists o, w'. split; [exact E|].
  apply (create_order_keeps_usage_limits _ _ _ _ _ _) with (2 := E).
  intros p lim [<-|[]] Hl _. inversion Hl; subst lim. vm_compute. discriminate.
Defined.

(** X6: an admission never removes or changes a stored order, and never
    touches the settings or the connection flag: on success the one new
    order is added (at the end of the collection, or at the head of
    DEMO_ORDERS in demo mode); on any failure the orders are as before. *)
Theorem create_order_keeps_orders py_str env data w r w' :
  create_order py_str env data w = (r, w') ->
  connected w' = connected w /\
  delivery w' = delivery w /\
  match r with
  | Ok o =>
      if connected w
      then orders w' = (orders w ++ [o])%list /\ DEMO_ORDERS w' = DEMO_ORDERS w
      else DEMO_ORDERS w' = o :: DEMO_ORDERS w /\ orders w' = orders w
  | _ => orders w' = orders w /\ DEMO_ORDERS w' = DEMO_ORDERS w
  end.
Proof.
  intros E. apply create_order_outcome in E.
  destruct E as [(_ & -> & ->)|(_ & ra & w1 & A & E)]; [auto|].
  apply apply_promo_world in A.
  destruct A as (Kc & Ko & Kd & _ & _ & _ & Ks).
  destruct E as [(_ & -> & ->)|(applied & _ & C)]; [auto|].
  apply commit_order_outcome in C.
  destruct C as [(-> & -> & _)|(o & -> & Hc & _ & _ & Hs & _ & W)]; [auto|].
  rewrite Kc, Ko, Kd in W. rewrite Hc, Hs. repeat split; auto.
  destruct (connected w); tauto.
Qed.

Lemma create_order_keeps_orders_witness :
  exists w',
    create_order str_whole insert_fails
      (cart [item "Latte" 2 50 []] "dine_in" None None) (shop true [])
    = (Raised PyMongoError, w') /\
    orders w' = [] /\ DEMO_ORDERS w' = [].
Proof.
  assert (E : exists w',
             create_order str_whole insert_fails
               (cart [item "Latte" 2 50 []] "dine_in" None None) (shop true [])
             = (Raised PyMongoError, w'))
    by (vm_compute; eexists; reflexivity).
  destruct E as (w' & E). exists w'. split; [exact E|].
  exact (proj2 (proj2 (create_order_keeps_orders _ _ _ _ _ _ E))).
Defined.

(** ** The ordinal of an order number *)

Lemma of_uint_D0 u : Nat.of_uint (Decimal.D0 u) = Nat.of_uint u.
Proof. reflexivity. Qed.

Lemma digits_zeros k s :
  NilEmpty.uint_of_string (zeros k ++ s)
  = option_map (Nat.iter k Decimal.D0) (NilEmpty.uint_of_string s).
Proof.
  induction k as [|k IH].
  - cbn [zeros append]. now destruct (NilEmpty.uint_of_string s).
  - change (Nat.iter (S k) Decimal.D0) with
      (fun u => Decimal.D0 (Nat.iter k Decimal.D0 u)).
    cbn [zeros append NilEmpty.uint_of_string]. rewrite IH.
    now destruct (NilEmpty.uint_of_string s).
Qed.

Lemma of_uint_iter_D0 k u : Nat.of_uint (Nat.iter k Decimal.D0 u) = Nat.of_uint u.
Proof.
  induction k as [|k IH]; [reflexivity|].
  change (Nat.iter (S k) Decimal.D0 u) with (Decimal.D0 (Nat.iter k Decimal.D0 u)).
  now rewrite of_uint_D0.
Qed.

Lemma str_nat_digits n :
  exists u, NilEmpty.uint_of_string (str_nat n) = Some u /\ Nat.of_uint u = n.
Proof.
  unfold str_nat, NilZero.string_of_uint.
  pose proof (DecimalNat.Unsigned.of_to n) as R.
  destruct (Nat.to_uint n) as [|d|d|d|d|d|d|d|d|d|d] eqn:E;
    try (eexists; split; [apply NilEmpty.usu|exact R]).
  exists (Decimal.D0 Decimal.Nil). split; [reflexivity|exact R].
Qed.

Lemma str_nat_not_empty n : str_nat n <> EmptyString.
Proof.
  unfold str_nat, NilZero.string_of_uint.
  destruct (Nat.to_uint n); discriminate.
Qed.

(** An ordinal reads back as the number it was made from. *)
Lemma nat_of_string_format_0d width n :
  nat_of_string (format_0d width n) = Some n.
Proof.
  unfold nat_of_string, format_0d, NilZero.uint_of_string. cbv zeta.
  destruct (zeros (width - String.length (str_nat n)) ++ str_nat n) eqn:E.
  - exfalso. destruct (width - String.length (str_nat n))%nat;
      cbn [zeros append] in E; [|discriminate].
    exact (str_nat_not_empty n E).
  - rewrite <- E, digits_zeros.
    destruct (str_nat_digits n) as (u & -> & U). cbn [option_map].
    now rewrite of_uint_iter_D0, U.
Qed.

Lemma append_cancel_l (a b c : string) : (a ++ b = a ++ c -> b = c)%string.
Proof.
  induction a as [|x a IH]; cbn [append]; [auto|].
  intros H. inversion H. auto.
Qed.

(** X7: the order number is "ORD-", the date of the clock as YYYYMMDD,
    "-", and an ordinal of at least three digits that reads back as the
    number of orders stored with a creation time from the bound on
    (database), or as the incremented counter (demo mode); only the demo
    counter changes. *)
Theorem generate_order_number_ordinal env w s w' :
  generate_order_number env w = (Ok s, w') ->
  exists ordinal,
    s = ("ORD-" ++ strftime_Ymd (utcnow_today env) ++ "-" ++ ordinal)%string /\
    (3 <= String.length ordinal)%nat /\
    nat_of_string ordinal
    = Some (if connected w
            then List.length
                   (filter (fun o => dt_geb (created_at o)
                                       (replace_hms0 (utcnow_midnight env)))
                           (orders w))
            else (demo_order_counter w + 1)%nat) /\
    w' = if connected w then w
         else with_demo_order_counter (demo_order_counter w + 1) w.
Proof.
  rewrite generate_order_number_run.
  destruct (connected w).
  - destruct (count_documents_raises env); [discriminate|].
    intros H; inversion H; subst. eexists. split; [reflexivity|].
    split; [apply format_0d_length|].
    split; [apply nat_of_string_format_0d|reflexivity].
  - intros H; inversion H; subst. eexists. split; [reflexivity|].
    split; [apply format_0d_length|].
    split; [apply nat_of_string_format_0d|reflexivity].
Qed.

Lemma generate_order_number_ordinal_witness :
  exists ordinal,
    "ORD-20240101-001"%string = ("ORD-" ++ "20240101" ++ "-" ++ ordinal)%string /\
    (3 <= String.length ordinal)%nat /\
    nat_of_string ordinal = Some 1%nat.
Proof.
  destruct (generate_order_number_ordinal quiet (shop false [])
              "ORD-20240101-001"
              (with_demo_order_counter 1 (shop false [])) eq_refl)
    as (ordinal & S & L & N & _).
  exists ordinal. split; [exact S|]. split; [exact L|exact N].
Defined.

Lemma format_0d_inj width a b : format_0d width a = format_0d width b -> a = b.
Proof.
  intros H. pose proof (nat_of_string_format_0d width a) as A.
  rewrite H, nat_of_string_format_0d in A. now inversion A.
Qed.

(** One admission in demo mode: the counter moves by one exactly when an
    order is returned, and the order carries the new value. *)
Lemma create_order_demo_number py_str env data w r w' :
  connected w = false ->
  create_order py_str env data w = (r, w') ->
  connected w' = false /\
  match r with
  | Ok o =>
      order_number o
      = ("ORD-" ++ strftime_Ymd (utcnow_today env) ++ "-"
         ++ format_0d 3 (demo_order_counter w + 1))%string /\
      demo_order_counter w' = (demo_order_counter w + 1)%nat
  | _ => demo_order_counter w' = demo_order_counter w
  end.
Proof.
  intros C E. apply create_order_outcome in E.
  destruct E as [(_ & -> & ->)|(_ & ra & w1 & A & E)]; [auto|].
  apply apply_promo_world in A. destruct A as (Kc & _ & _ & _ & Kn & _).
  destruct E as [(_ & -> & ->)|(applied & _ & E)]; [split; congruence|].
  rewrite commit_order_run in E. cbv zeta in E. unfold after_publish in E.
  rewrite Kc, C in E. inversion E; subst r w'; clear E.
  unfold order_number_in. rewrite Kc, C, Kn.
  destruct (publish_raises env); cbn; rewrite ?Kc, ?C, ?Kn; auto.
Qed.

Lemma admit_all_demo py_str d reqs : forall w os w',
  connected w = false ->
  Forall (fun rq => strftime_Ymd (utcnow_today (fst rq)) = d) reqs ->
  admit_all py_str reqs w = (os, w') ->
  connected w' = false /\
  (demo_order_counter w <= demo_order_counter w')%nat /\
  (forall o, In o os ->
             exists k, order_number o
                       = ("ORD-" ++ d ++ "-" ++ format_0d 3 k)%string /\
                       (demo_order_counter w < k <= demo_order_counter w')%nat) /\
  NoDup (map order_number os).
Proof.
  induction reqs as [|rq reqs IH]; intros w os w' C F E.
  - cbn in E. inversion E; subst. repeat split; auto; try constructor.
    intros o [].
  - cbn [admit_all] in E.
    destruct (create_order py_str (fst rq) (snd rq) w) as [r w1] eqn:E1.
    destruct (admit_all py_str reqs w1) as [os1 w2] eqn:E2.
    inversion E; subst os w'; clear E.
    pose proof (Forall_inv F) as Fd. pose proof (Forall_inv_tail F) as Fr.
    cbn beta in Fd.
    destruct (create_order_demo_number _ _ _ _ _ _ C E1) as (C1 & N).
    destruct (IH _ _ _ C1 Fr E2) as (C2 & L & K & D).
    split; [exact C2|].
    destruct r as [o|c0 d0|e].
    + destruct N as (No & Nc). split; [lia|]. split.
      * intros o' [<-|Ho'].
        -- exists (demo_order_counter w + 1)%nat.
           split; [now rewrite No, Fd|lia].
        -- destruct (K o' Ho') as (k & Hk & Hr). exists k. split; [exact Hk|lia].
      * cbn [map]. constructor; [|exact D].
        intros Hin. apply in_map_iff in Hin.
        destruct Hin as (o' & Heq & Ho').
        destruct (K o' Ho') as (k & Hk & Hr).
        rewrite Hk, No, Fd in Heq.
        apply append_cancel_l, append_cancel_l, append_cancel_l in Heq.
        apply format_0d_inj in Heq. lia.
    + split; [lia|]. split; [|exact D].
      intros o' Ho'. destruct (K o' Ho') as (k & Hk & Hr).
      exists k. split; [exact Hk|lia].
    + split; [lia|]. split; [|exact D].
      intros o' Ho'. destruct (K o' Ho') as (k & Hk & Hr).
      exists k. split; [exact Hk|lia].
Qed.

(** X8: in demo mode the order numbers handed out by any sequence of
    admissions whose clocks show the same date are pairwise distinct. *)
Theorem demo_order_numbers_distinct py_str d reqs w os w' :
  connected w = false ->
  Forall (fun rq => strftime_Ymd (utcnow_today (fst rq)) = d) reqs ->
  admit_all py_str reqs w = (os, w') ->
  NoDup (map order_number os).
Proof.
  intros C F E. now destruct (admit_all_demo _ _ _ _ _ _ C F E) as (_ & _ & _ & D).
Qed.

Lemma demo_order_numbers_distinct_witness :
  exists os w',
    admit_all str_whole
      [(quiet, cart [item "Latte" 1 50 []] "dine_in" None None);
       (quiet, cart [item "Cake" 1 70 []] "dine_in" None None)]
      (shop false [])
    = (os, w') /\
    map order_number os = ["ORD-20240101-001"; "ORD-20240101-002"]%string /\
    NoDup (map order_number os).
Proof.
  assert (E : exists os w',
             admit_all str_whole
               [(quiet, cart [item "Latte" 1 50 []] "dine_in" None None);
                (quiet, cart [item "Cake" 1 70 []] "dine_in" None None)]
               (shop false [])
             = (os, w') /\
             map order_number os
             = ["ORD-20240101-001"; "ORD-20240101-002"]%string)
    by (vm_compute; eexists; eexists; split; reflexivity).
  destruct E as (os & w' & E & N). exists os, w'.
  split; [exact E|]. split; [exact N|].
  apply (demo_order_numbers_distinct str_whole "20240101"
           [(quiet, cart [item "Latte" 1 50 []] "dine_in" None None);
            (quiet, cart [item "Cake" 1 70 []] "dine_in" None None)]
           (shop false []) os w').
  - reflexivity.
  - repeat constructor.
  - exact E.
Defined.

(** ** Status and payment updates, whatever they return *)

Lemma update_first_none {A} (f : A -> bool) (g : A -> A) l :
  find f l = None -> update_first f g l = (l, false).
Proof.
  induction l as [|x l IH]; [reflexivity|]. cbn [find update_first].
  destruct (f x); [discriminate|]. intros H. now rewrite (IH H).
Qed.

Lemma update_first_matched {A} (f : A -> bool) (g : A -> A) l p :
  find f l = Some p -> snd (update_first f g l) = true.
Proof.
  induction l as [|x l IH]; [discriminate|]. cbn [find update_first].
  destruct (f x); [reflexivity|]. intros H. specialize (IH H).
  now destruct (update_first f g l).
Qed.

Lemma map_update_first {A B} (f : A -> bool) (g : A -> A) (h : A -> B) l :
  (forall x, h (g x) = h x) ->
  map h (fst (update_first f g l)) = map h l.
Proof.
  intros H. induction l as [|x l IH]; [reflexivity|]. cbn [update_first].
  destruct (f x); [cbn; now rewrite H|].
  destruct (update_first f g l) as [l' m]. cbn [fst] in *. cbn [map].
  now rewrite IH.
Qed.

Lemma mem_In s l : mem s l = true <-> In s l.
Proof.
  unfold mem. rewrite existsb_exists. split.
  - intros (x & I & E). apply String.eqb_eq in E. now subst.
  - intros I. exists s. split; [exact I|apply String.eqb_refl].
Qed.

Lemma with_orders_same w : with_orders (orders w) w = w.
Proof. now destruct w. Qed.

Lemma with_DEMO_ORDERS_same w : with_DEMO_ORDERS (DEMO_ORDERS w) w = w.
Proof. now destruct w. Qed.

(** The stores after the storing part of a status or payment update:
    the orders are updated in the store the connection flag selects. *)
Lemma update_order_status_run ObjectId env order_id status w :
  update_order_status ObjectId env order_id status w =
  if negb (mem status valid_statuses)
  then (HTTPException 400 "Invalid status", w)
  else if connected w then
    match ObjectId order_id with
    | None => (Raised InvalidId, w)
    | Some oid =>
        if update_one_raises env then (Raised PyMongoError, w)
        else
          let u := update_first (has_id oid) (set_status status) (orders w) in
          if snd u
          then (Ok "updated"%string,
                (if publish_raises env then fun x => x
                 else fun x =>
                   with_published
                     (published x
                      ++ [(CHANNEL_ORDERS_NEW, order_updated order_id status)]) x)
                  (with_orders (fst u) w))
          else (HTTPException 404 "Order not found", with_orders (fst u) w)
    end
  else
    (Ok "updated"%string,
     (if publish_raises env then fun x => x
      else fun x =>
        with_published
          (published x
           ++ [(CHANNEL_ORDERS_NEW, order_updated order_id status)]) x)
       (with_DEMO_ORDERS
          (fst (update_first (has_id order_id) (set_status status)
                             (DEMO_ORDERS w))) w)).
Proof.
  unfold update_order_status, orders_update_one, publish. run_route.
  destruct (negb (mem status valid_statuses)); [reflexivity|].
  destruct (connected w); cbn [negb].
  - destruct (ObjectId order_id) as [oid|]; [|reflexivity].
    destruct (update_one_raises env); [reflexivity|]. cbv zeta.
    destruct (snd (update_first (has_id oid) (set_status status) (orders w)));
      cbn [negb]; [|reflexivity].
    destruct (publish_raises env); reflexivity.
  - destruct (publish_raises env); reflexivity.
Qed.

Lemma update_payment_status_run ObjectId env order_id payment w :
  update_payment_status ObjectId env order_id payment w =
  if negb (mem payment ["pending"; "paid"]%string)
  then (HTTPException 400 "Invalid payment status", w)
  else if connected w then
    match ObjectId order_id with
    | None => (Raised InvalidId, w)
    | Some oid =>
        if update_one_raises env then (Raised PyMongoError, w)
        else
          let u := update_first (has_id oid) (set_payment_status payment)
                                (orders w) in
          if snd u
          then (Ok "updated"%string, with_orders (fst u) w)
          else (HTTPException 404 "Order not found", with_orders (fst u) w)
    end
  else
    (Ok "updated"%string,
     with_DEMO_ORDERS
       (fst (update_first (has_id order_id) (set_payment_status payment)
                          (DEMO_ORDERS w))) w).
Proof.
  unfold update_payment_status, orders_update_one. run_route.
  destruct (negb (mem payment ["pending"%string; "paid"%string]));
    [reflexivity|].
  destruct (connected w); cbn [negb]; [|reflexivity].
  destruct (ObjectId order_id) as [oid|]; [|reflexivity].
  destruct (update_one_raises env); [reflexivity|]. cbv zeta.
  destruct (snd (update_first (has_id oid) (set_payment_status payment)
                              (orders w))); reflexivity.
Qed.

(** X9: a status update answers 400 exactly when the status is not one
    of new, preparing, ready, completed, cancelled, and a payment update
    exactly when the payment status is not pending or paid; the answer is
    then "Invalid status" ("Invalid payment status") and nothing is
    stored or published. *)
Theorem updates_reject_unknown_values ObjectId env order_id value w :
  ((exists d, fst (update_order_status ObjectId env order_id value w)
              = HTTPException 400 d) <->
   ~ In value ["new"; "preparing"; "ready"; "completed"; "cancelled"]%string) /\
  (~ In value ["new"; "preparing"; "ready"; "completed"; "cancelled"]%string ->
   update_order_status ObjectId env order_id value w
   = (HTTPException 400 "Invalid status", w)) /\
  ((exists d, fst (update_payment_status ObjectId env order_id value w)
              = HTTPException 400 d) <->
   ~ In value ["pending"; "paid"]%string) /\
  (~ In value ["pending"; "paid"]%string ->
   update_payment_status ObjectId env order_id value w
   = (HTTPException 400 "Invalid payment status", w)).
Proof.
  rewrite update_order_status_run, update_payment_status_run.
  fold valid_statuses.
  pose proof (mem_In value valid_statuses) as S.
  pose proof (mem_In value ["pending"; "paid"]%string) as P.
  destruct (mem value valid_statuses);
    destruct (mem value ["pending"; "paid"]%string); cbn [negb].
  all: repeat split.
  all: try (intros _; intros I; apply S in I || apply P in I; discriminate).
  all: try (intros _; eexists; reflexivity).
  all: try (intros N; exfalso; apply N; apply S || apply P; reflexivity).
  all: try (intros (d & E); exfalso; revert E;
            destruct (connected w); [|discriminate];
            destruct (ObjectId order_id); [|discriminate];
            destruct (update_one_raises env); [discriminate|];
            cbv zeta;
            match goal with
            | |- context [snd ?u] => destruct (snd u); discriminate
            end).
Qed.

Lemma updates_reject_unknown_values_witness :
  update_order_status ObjectId_24 quiet "65a000000000000000000001" "archived"
    (shop true [])
  = (HTTPException 400 "Invalid status", shop true []).
Proof.
  apply (updates_reject_unknown_values ObjectId_24 quiet
           "65a000000000000000000001" "archived" (shop true [])).
  intros I. vm_compute in I. intuition discriminate.
Defined.

(** X10: a status update for an identifier that no stored order has.
    Against the database it answers 404 "Order not found", with nothing
    changed and nothing published.  In demo mode it answers "updated"
    all the same, with the orders unchanged, and still publishes the
    [order_updated] event. *)
Theorem update_order_status_unknown_order ObjectId env order_id status w :
  In status valid_statuses ->
  (connected w = true ->
   forall oid,
     ObjectId order_id = Some oid ->
     update_one_raises env = false ->
     find (has_id oid) (orders w) = None ->
     update_order_status ObjectId env order_id status w
     = (HTTPException 404 "Order not found", w)) /\
  (connected w = false ->
   publish_raises env = false ->
   find (has_id order_id) (DEMO_ORDERS w) = None ->
   update_order_status ObjectId env order_id status w
   = (Ok "updated"%string,
      with_published
        (published w ++ [(CHANNEL_ORDERS_NEW, order_updated order_id status)])
        w)).
Proof.
  intros I. apply mem_In in I. rewrite update_order_status_run, I. cbn [negb].
  split.
  - intros C oid O U F. rewrite C, O, U. cbv zeta.
    rewrite (update_first_none _ _ _ F). cbn [fst snd].
    now rewrite with_orders_same.
  - intros C P F. rewrite C, P.
    rewrite (update_first_none _ _ _ F). cbn [fst].
    now rewrite with_DEMO_ORDERS_same.
Qed.

Lemma update_order_status_unknown_order_witness :
  update_order_status ObjectId_24 quiet "65a000000000000000000009" "ready"
    (shop true [])
  = (HTTPException 404 "Order not found", shop true []) /\
  fst (update_order_status ObjectId_24 quiet "7" "ready" (shop false []))
  = Ok "updated"%string.
Proof.
  destruct (update_order_status_unknown_order ObjectId_24 quiet
              "65a000000000000000000009" "ready" (shop true [])) as [D _].
  { vm_compute. auto. }
  destruct (update_order_status_unknown_order ObjectId_24 quiet
              "7" "ready" (shop false [])) as [_ M].
  { vm_compute. auto. }
  split.
  - exact (D eq_refl _ eq_refl eq_refl eq_refl).
  - now rewrite (M eq_refl eq_refl eq_refl).
Defined.

(** X11: against the database, a status update with any of the five
    statuses sets the status of the first stored order with the
    identifier, whatever its status was (a completed order can go back
    to new), and leaves every other order and the promo codes as they
    were. *)
Theorem update_order_status_sets_first_match ObjectId env order_id status w oid o :
  In status valid_statuses ->
  connected w = true ->
  ObjectId order_id = Some oid ->
  update_one_raises env = false ->
  find (has_id oid) (orders w) = Some o ->
  exists l1 l2 w',
    orders w = (l1 ++ o :: l2)%list /\
    update_order_status ObjectId env order_id status w
    = (Ok "updated"%string, w') /\
    orders w' = (l1 ++ set_status status o :: l2)%list /\
    promo_codes w' = promo_codes w /\
    DEMO_ORDERS w' = DEMO_ORDERS w.
Proof.
  intros I C O U F. apply mem_In in I.
  destruct (update_first_find _ (set_status status) _ _ F) as (l1 & l2 & S & E).
  rewrite update_order_status_run, I, C, O, U. cbn [negb]. cbv zeta.
  rewrite (update_first_matched _ _ _ _ F), E.
  exists l1, l2. eexists. split; [exact S|]. split; [reflexivity|].
  destruct (publish_raises env); cbn; auto.
Qed.

Lemma update_order_status_sets_first_match_witness :
  exists o w1 w2,
    create_order str_whole quiet
      (cart [item "Latte" 1 50 []] "dine_in" None None) (shop true [])
    = (Ok o, w1) /\
    update_order_status ObjectId_24 quiet "65a000000000000000000001"
      "completed" w1
    = (Ok "updated"%string, w2) /\
    exists l1 l2 w3,
      orders w2 = (l1 ++ set_status "completed" o :: l2)%list /\
      update_order_status ObjectId_24 quiet "65a000000000000000000001" "new" w2
      = (Ok "updated"%string, w3) /\
      orders w3 = (l1 ++ set_status "new" (set_status "completed" o) :: l2)%list.
Proof.
  assert (E : exists o w1 w2,
             create_order str_whole quiet
               (cart [item "Latte" 1 50 []] "dine_in" None None) (shop true [])
             = (Ok o, w1) /\
             update_order_status ObjectId_24 quiet "65a000000000000000000001"
               "completed" w1
             = (Ok "updated"%string, w2) /\
             connected w2 = true /\
             find (has_id "65a000000000000000000001") (orders w2)
             = Some (set_status "completed" o))
    by (vm_compute; do 3 eexists; repeat split; reflexivity).
  destruct E as (o & w1 & w2 & E1 & E2 & C & F).
  exists o, w1, w2. split; [exact E1|]. split; [exact E2|].
  destruct (update_order_status_sets_first_match ObjectId_24 quiet
              "65a000000000000000000001" "new" w2
              "65a000000000000000000001" (set_status "completed" o))
    as (l1 & l2 & w3 & S & R & T & _); auto.
  { vm_compute. auto. }
  exists l1, l2, w3. auto.
Defined.

(** X12: whatever a status update returns, every stored order, in the
    collection and in DEMO_ORDERS, keeps every field but its status (so
    the orders keep their number, their identifiers, order numbers,
    totals and payment statuses, in both stores), and the promo codes,
    the settings, the connection flag and the demo counter are untouched;
    it publishes at most the one [order_updated] event, and exactly that
    one when it returns and the bus takes the message. *)
Theorem update_order_status_touches_only_status
    ObjectId env order_id status w r w' :
  update_order_status ObjectId env order_id status w = (r, w') ->
  map _id (orders w') = map _id (orders w) /\
  map order_number (orders w') = map order_number (orders w) /\
  map total (orders w') = map total (orders w) /\
  map payment_status (orders w') = map payment_status (orders w) /\
  map _id (DEMO_ORDERS w') = map _id (DEMO_ORDERS w) /\
  map total (DEMO_ORDERS w') = map total (DEMO_ORDERS w) /\
  map payment_status (DEMO_ORDERS w') = map payment_status (DEMO_ORDERS w) /\
  promo_codes w' = promo_codes w /\
  delivery w' = delivery w /\
  demo_order_counter w' = demo_order_counter w /\
  published w'
  = match r with
    | Ok _ =>
        if publish_raises env then published w
        else (published w
              ++ [(CHANNEL_ORDERS_NEW, order_updated order_id status)])%list
    | _ => published w
    end /\
  map order_number (DEMO_ORDERS w') = map order_number (DEMO_ORDERS w) /\
  map (set_status EmptyString) (orders w')
  = map (set_status EmptyString) (orders w) /\
  map (set_status EmptyString) (DEMO_ORDERS w')
  = map (set_status EmptyString) (DEMO_ORDERS w) /\
  DEMO_PROMO_CODES w' = DEMO_PROMO_CODES w /\
  connected w' = connected w.
Proof.
  rewrite update_order_status_run.
  destruct (negb (mem status valid_statuses)).
  { intros H; inversion H; subst. auto 20. }
  destruct (connected w) eqn:C.
  - destruct (ObjectId order_id) as [oid|];
      [|intros H; inversion H; subst; auto 20].
    destruct (update_one_raises env); [intros H; inversion H; subst; auto 20|].
    cbv zeta.
    destruct (snd (update_first (has_id oid) (set_status status) (orders w)));
      intros H; inversion H; subst r w'; clear H;
      destruct (publish_raises env); cbn;
      rewrite !map_update_first by reflexivity; auto 20.
  - intros H; inversion H; subst r w'; clear H.
    destruct (publish_raises env); cbn;
      rewrite !map_update_first by reflexivity; auto 20.
Qed.

Lemma update_order_status_touches_only_status_witness :
  exists o w1 w2,
    create_order str_whole quiet
      (cart [item "Latte" 1 50 []] "dine_in" None None) (shop false [])
    = (Ok o, w1) /\
    update_order_status ObjectId_24 quiet "1" "ready" w1
    = (Ok "updated"%string, w2) /\
    map status (DEMO_ORDERS w2) = ["ready"%string] /\
    map order_number (DEMO_ORDERS w2) = map order_number (DEMO_ORDERS w1) /\
    map total (DEMO_ORDERS w2) = map total (DEMO_ORDERS w1) /\
    map payment_status (DEMO_ORDERS w2) = map payment_status (DEMO_ORDERS w1).
Proof.
  assert (E : exists o w1 w2,
             create_order str_whole quiet
               (cart [item "Latte" 1 50 []] "dine_in" None None) (shop false [])
             = (Ok o, w1) /\
             update_order_status ObjectId_24 quiet "1" "ready" w1
             = (Ok "updated"%string, w2) /\
             map status (DEMO_ORDERS w2) = ["ready"%string])
    by (vm_compute; do 3 eexists; repeat split; reflexivity).
  destruct E as (o & w1 & w2 & E1 & E2 & S).
  exists o, w1, w2. split; [exact E1|]. split; [exact E2|]. split; [exact S|].
  destruct (update_order_status_touches_only_status _ _ _ _ _ _ _ E2)
    as (_ & _ & _ & _ & _ & T & P & _ & _ & _ & _ & N & _).
  split; [exact N|]. split; [exact T|exact P].
Defined.

(** X13: whatever a payment update returns, it publishes nothing, and
    every stored order, in the collection and in DEMO_ORDERS, keeps
    every field but its payment status (so the statuses, identifiers,
    order numbers and totals are as they were, in both stores); the promo
    codes, the settings, the connection flag and the demo counter are
    untouched. *)
Theorem update_payment_status_touches_only_payment
    ObjectId env order_id payment w r w' :
  update_payment_status ObjectId env order_id payment w = (r, w') ->
  published w' = published w /\
  map _id (orders w') = map _id (orders w) /\
  map order_number (orders w') = map order_number (orders w) /\
  map total (orders w') = map total (orders w) /\
  map status (orders w') = map status (orders w) /\
  map _id (DEMO_ORDERS w') = map _id (DEMO_ORDERS w) /\
  map total (DEMO_ORDERS w') = map total (DEMO_ORDERS w) /\
  map status (DEMO_ORDERS w') = map status (DEMO_ORDERS w) /\
  promo_codes w' = promo_codes w /\
  delivery w' = delivery w /\
  demo_order_counter w' = demo_order_counter w /\
  map order_number (DEMO_ORDERS w') = map order_number (DEMO_ORDERS w) /\
  map (set_payment_status EmptyString) (orders w')
  = map (set_payment_status EmptyString) (orders w) /\
  map (set_payment_status EmptyString) (DEMO_ORDERS w')
  = map (set_payment_status EmptyString) (DEMO_ORDERS w) /\
  DEMO_PROMO_CODES w' = DEMO_PROMO_CODES w /\
  connected w' = connected w.
Proof.
  rewrite update_payment_status_run.
  destruct (negb (mem payment ["pending"; "paid"]%string)).
  { intros H; inversion H; subst. auto 20. }
  destruct (connected w) eqn:C.
  - destruct (ObjectId order_id) as [oid|];
      [|intros H; inversion H; subst; auto 20].
    destruct (update_one_raises env); [intros H; inversion H; subst; auto 20|].
    cbv zeta.
    destruct (snd (update_first (has_id oid) (set_payment_status payment)
                                (orders w)));
      intros H; inversion H; subst r w'; clear H; cbn;
      rewrite !map_update_first by reflexivity; auto 20.
  - intros H; inversion H; subst r w'; clear H. cbn.
    rewrite !map_update_first by reflexivity. auto 20.
Qed.

Lemma update_payment_status_touches_only_payment_witness :
  exists o w1 w2,
    create_order str_whole quiet
      (cart [item "Latte" 1 50 []] "dine_in" None None) (shop false [])
    = (Ok o, w1) /\
    update_payment_status ObjectId_24 quiet "1" "paid" w1
    = (Ok "updated"%string, w2) /\
    map payment_status (DEMO_ORDERS w2) = ["paid"%string] /\
    published w2 = published w1 /\
    map order_number (DEMO_ORDERS w2) = map order_number (DEMO_ORDERS w1) /\
    map status (DEMO_ORDERS w2) = map status (DEMO_ORDERS w1).
Proof.
  assert (E : exists o w1 w2,
             create_order str_whole quiet
               (cart [item "Latte" 1 50 []] "dine_in" None None) (shop false [])
             = (Ok o, w1) /\
             update_payment_status ObjectId_24 quiet "1" "paid" w1
             = (Ok "updated"%string, w2) /\
             map payment_status (DEMO_ORDERS w2) = ["paid"%string])
    by (vm_compute; do 3 eexists; repeat split; reflexivity).
  destruct E as (o & w1 & w2 & E1 & E2 & Y).
  exists o, w1, w2. split; [exact E1|]. split; [exact E2|]. split; [exact Y|].
  destruct (update_payment_status_touches_only_payment _ _ _ _ _ _ _ E2)
    as (P & _ & _ & _ & _ & _ & _ & S & _ & _ & _ & N & _).
  split; [exact P|]. split; [exact N|exact S].
Defined.

(** The identifier of an admitted order. *)
Lemma create_order_id py_str env data w o w' :
  create_order py_str env data w = (Ok o, w') ->
  _id o = Some (if connected w then inserted_id env
                else str_nat (List.length (DEMO_ORDERS w) + 1)).
Proof.
  intros H. apply create_order_Ok_inv in H.
  destruct H as (_ & applied & w1 & A & C).
  apply apply_promo_world in A. destruct A as (Kc & _ & Kd & _).
  rewrite commit_order_run in C. cbv zeta in C. rewrite Kc, Kd in C.
  destruct (connected w).
  - destruct (count_documents_raises env); [discriminate|].
    destruct (insert_one_raises env); [discriminate|].
    inversion C; subst. reflexivity.
  - inversion C; subst. reflexivity.
Qed.

Lemma update_first_app_r {A} (f : A -> bool) (g : A -> A) l x :
  find f l = None -> f x = true ->
  update_first f g (l ++ [x]) = ((l ++ [g x])%list, true).
Proof.
  intros N F. induction l as [|y l IH]; cbn [app update_first].
  - now rewrite F.
  - cbn [find] in N. destruct (f y); [discriminate|]. now rewrite (IH N).
Qed.

(** X14: an admitted order can be updated under the identifier it was
    returned with.  In demo mode the status update that follows the
    admission changes that order, the head of DEMO_ORDERS; against the
    database it changes that order, the last of the collection, provided
    [ObjectId] accepts the identifier and no earlier order has it. *)
Theorem create_then_update_order_status
    py_str ObjectId env env' data status w o w1 i :
  create_order py_str env data w = (Ok o, w1) ->
  _id o = Some i ->
  In status valid_statuses ->
  (connected w = false ->
   exists w2,
     update_order_status ObjectId env' i status w1 = (Ok "updated"%string, w2) /\
     DEMO_ORDERS w2 = set_status status o :: DEMO_ORDERS w) /\
  (connected w = true ->
   ObjectId i = Some i ->
   update_one_raises env' = false ->
   find (has_id i) (orders w) = None ->
   exists w2,
     update_order_status ObjectId env' i status w1 = (Ok "updated"%string, w2) /\
     orders w2 = (orders w ++ [set_status status o])%list).
Proof.
  intros E I S. apply mem_In in S.
  pose proof (create_order_keeps_orders _ _ _ _ _ _ E) as (C & _ & K).
  assert (H : has_id i o = true)
    by (unfold has_id; rewrite I; apply String.eqb_refl).
  rewrite update_order_status_run, S, C. cbn [negb].
  split; intros Cw; rewrite Cw in *.
  - destruct K as (K & _). rewrite K. cbn [update_first]. rewrite H.
    cbn [fst]. eexists. split; [reflexivity|].
    destruct (publish_raises env'); reflexivity.
  - intros O U F. destruct K as (K & _). rewrite O, U, K. cbv zeta.
    rewrite (update_first_app_r _ _ _ _ F H). cbn [fst snd].
    eexists. split; [reflexivity|].
    destruct (publish_raises env'); reflexivity.
Qed.

Lemma create_then_update_order_status_witness :
  exists o w1 w2,
    create_order str_whole quiet
      (cart [item "Latte" 1 50 []] "dine_in" None None) (shop false [])
    = (Ok o, w1) /\
    update_order_status ObjectId_24 quiet "1" "preparing" w1
    = (Ok "updated"%string, w2) /\
    DEMO_ORDERS w2 = [set_status "preparing" o].
Proof.
  assert (E : exists o w1,
             create_order str_whole quiet
               (cart [item "Latte" 1 50 []] "dine_in" None None) (shop false [])
             = (Ok o, w1) /\ _id o = Some "1"%string)
    by (vm_compute; do 2 eexists; split; reflexivity).
  destruct E as (o & w1 & E & I).
  destruct (create_then_update_order_status str_whole ObjectId_24 quiet quiet
              _ "preparing" _ _ _ _ E I) as [D _].
  { vm_compute. auto. }
  destruct (D eq_refl) as (w2 & U & L).
  exists o, w1, w2. auto.
Defined.

(** ** The promo preview *)

Lemma validate_promo_inv env c t w r w' :
  validate_promo env c t w = (r, w') ->
  w' = w /\
  ((exists p, validate_promo_code env c t w = (Ok (Valid p), w) /\
              r = Ok (preview_valid (code p) (discount_type p) (discount_value p)
                        (calculate_discount p t)
                        (t - calculate_discount p t))) \/
   (exists e, validate_promo_code env c t w = (Ok (Invalid e), w) /\
              r = Ok (preview_invalid e)) \/
   (validate_promo_code env c t w = (Raised PyMongoError, w) /\
    r = Raised PyMongoError)).
Proof.
  unfold validate_promo. intros H.
  destruct (validate_promo_code_answers env c t w) as [[v V]|[V _]].
  - erewrite bind_Ok in H by exact V. destruct v as [p|e];
      unfold ret in H; inversion H; subst; split; eauto.
  - erewrite bind_Raised in H by exact V. inversion H; subst. auto.
Qed.

(** X15: the preview route only reads.  Whatever it answers, the world
    is unchanged (no use is counted).  A "valid" answer names an active
    promo of the store in use, its new total is the order total minus the
    discount, and for a promo that is not a percentage the new total is
    never negative. *)
Theorem validate_promo_reads_only env c t w r w' :
  validate_promo env c t w = (r, w') ->
  w' = w /\
  forall pc kind value discount nt,
    r = Ok (preview_valid pc kind value discount nt) ->
    nt = t - discount /\
    (kind <> "percentage"%string -> 0 <= nt) /\
    exists p,
      In p (if connected w then promo_codes w else DEMO_PROMO_CODES w) /\
      is_active p = true /\
      code p = pc /\ discount_type p = kind /\ discount_value p = value /\
      discount = calculate_discount p t.
Proof.
  intros H. apply validate_promo_inv in H.
  destruct H as (-> & H). split; [reflexivity|].
  intros pc kind value discount nt R.
  destruct H as [(p & V & ->)|[(e & _ & ->)|(_ & ->)]]; try discriminate.
  inversion R; subst. split; [reflexivity|]. split.
  - intros N. unfold calculate_discount.
    apply String.eqb_neq in N. rewrite N.
    pose proof (py_min_le_r (discount_value p) t). lra.
  - exists p. split; [exact (validate_promo_code_Valid_In _ _ _ _ _ _ V)|].
    split; [|auto].
    destruct (connected w) eqn:C.
    + now apply (validate_promo_code_Valid_connected _ _ _ _ _ _ C) in V.
    + destruct (validate_promo_code_demo env c t w C) as (v & V' & P).
      rewrite V in V'. inversion V'; subst v. tauto.
Qed.

Lemma validate_promo_reads_only_witness :
  exists r,
    validate_promo quiet "off" 100
      (shop true [promo "OFF" "fixed" 150 None true])
    = (r, shop true [promo "OFF" "fixed" 150 None true]).
Proof.
  destruct (validate_promo quiet "off" 100
              (shop true [promo "OFF" "fixed" 150 None true]))
    as [r w'] eqn:E.
  exists r.
  now rewrite (proj1 (validate_promo_reads_only _ _ _ _ _ _ E)).
Defined.

(** X16: the preview agrees with the admission.  For a request with the
    same clock, in the same world, with the preview asked for the cart's
    subtotal: if the preview answers "valid", an admitted order carries
    the previewed code, discount and total; if it answers "invalid", the
    order has no discount and no code. *)
Theorem validate_promo_previews_admission py_str env data w r w1 o w' :
  truthy (promo_code data) = true ->
  validate_promo env (code_given data) (cart_subtotal data) w = (r, w1) ->
  create_order py_str env data w = (Ok o, w') ->
  match r with
  | Ok (preview_valid pc _ _ discount nt) =>
      o_promo_code o = Some pc /\ discount_amount o = discount /\ total o = nt
  | Ok (preview_invalid _) =>
      o_promo_code o = None /\ discount_amount o = 0 /\ total o = subtotal o - 0
  | _ => False
  end.
Proof.
  intros T P E.
  pose proof (create_order_fields _ _ _ _ _ _ E) as (S & Tt & _).
  apply create_order_Ok_inv in E.
  destruct E as (_ & applied & w2 & A & C).
  apply commit_order_Ok_inv in C.
  destruct C as (_ & D & Pc & _).
  apply validate_promo_inv in P. destruct P as (_ & P).
  destruct P as [(p & V & ->)|[(e & V & ->)|(V & ->)]].
  - rewrite (apply_promo_Valid _ _ _ _ T V) in A.
    destruct (connected w && update_one_raises env); [discriminate|].
    inversion A; subst applied. cbn [fst snd] in *.
    split; [exact Pc|]. split; [exact D|]. now rewrite Tt, S, D.
  - rewrite (apply_promo_Invalid _ _ _ _ T V) in A.
    inversion A; subst applied. cbn [fst snd] in *.
    split; [exact Pc|]. split; [exact D|]. now rewrite Tt, D.
  - unfold apply_promo in A. rewrite T in A.
    erewrite bind_Raised in A by exact V. discriminate.
Qed.

Lemma validate_promo_previews_admission_witness :
  exists o w',
    create_order str_whole quiet
      (cart [item "Latte" 2 500 []] "dine_in" None (Some "ten"))
      (shop true [promo "TEN" "percentage" 10 None true])
    = (Ok o, w') /\
    o_promo_code o = Some "TEN"%string /\
    discount_amount o = py_round2 (1000 * 10 / 100).
Proof.
  assert (E : exists o w',
             create_order str_whole quiet
               (cart [item "Latte" 2 500 []] "dine_in" None (Some "ten"))
               (shop true [promo "TEN" "percentage" 10 None true])
             = (Ok o, w'))
    by (vm_compute; eexists; eexists; reflexivity).
  destruct E as (o & w' & E). exists o, w'. split; [exact E|].
  pose proof (validate_promo_previews_admission str_whole quiet
                (cart [item "Latte" 2 500 []] "dine_in" None (Some "ten"))
                (shop true [promo "TEN" "percentage" 10 None true])
                _ _ o w' eq_refl eq_refl E) as (P & D & _).
  split; [exact P|exact D].
Defined.

(** ** Creating promo codes *)

Lemma upper_ascii_idem c : upper_ascii (upper_ascii c) = upper_ascii c.
Proof. destruct c as [[] [] [] [] [] [] [] []]; reflexivity. Qed.

Lemma upper_idem s : upper (upper s) = upper s.
Proof.
  induction s as [|c s IH]; [reflexivity|].
  cbn [upper]. now rewrite upper_ascii_idem, IH.
Qed.

Lemma find_app_r {A} (f : A -> bool) l x :
  find f l = None -> find f (l ++ [x]) = if f x then Some x else None.
Proof.
  induction l as [|y l IH]; [reflexivity|]. cbn [find app].
  destruct (f y); [discriminate|]. exact IH.
Qed.

Lemma find_none_code c l :
  find (fun p => (code p =? c)%string) l = None -> ~ In c (map code l).
Proof.
  intros F I. apply in_map_iff in I. destruct I as (p & E & I).
  apply (find_none _ _ F) in I. cbn beta in I.
  rewrite E, String.eqb_refl in I. discriminate.
Qed.

Lemma create_promo_code_run env data w :
  create_promo_code env data w =
  if connected w then
    if find_one_raises env then (Raised PyMongoError, w)
    else
      match find (fun p => (code p =? upper (pc_code data))%string)
                 (promo_codes w) with
      | Some _ => (HTTPException 400 "Промокод вже існує", w)
      | None =>
          if insert_one_raises env then (Raised PyMongoError, w)
          else
            (Ok {| created_id := inserted_id env;
                   created_doc := new_promo_doc data;
                   created_time := utcnow_doc env |},
             with_promo_codes (promo_codes w ++ [new_promo_doc data]) w)
      end
  else
    (Ok {| created_id := str_nat (List.length (DEMO_PROMO_CODES w) + 1);
           created_doc := new_promo_doc data;
           created_time := utcnow_doc env |},
     with_DEMO_PROMO_CODES (DEMO_PROMO_CODES w ++ [new_promo_doc data]) w).
Proof.
  unfold create_promo_code, promo_codes_find_one, promo_codes_insert_one.
  run_route.
  destruct (connected w); cbn [negb]; [|reflexivity].
  destruct (find_one_raises env); [reflexivity|].
  destruct (find _ (promo_codes w)); [reflexivity|].
  destruct (insert_one_raises env); reflexivity.
Qed.

(** X17: against the database a promo code is created at most once: a
    code that is already stored (in upper case) is refused with 400 and
    nothing changes; otherwise the new document goes to the end of the
    collection with its code in upper case and no use counted.  So the
    stored codes stay pairwise distinct, and stay in upper case. *)
Theorem create_promo_code_keeps_codes_distinct env data w r w' :
  connected w = true ->
  create_promo_code env data w = (r, w') ->
  (In (upper (pc_code data)) (map code (promo_codes w)) ->
   find_one_raises env = false ->
   r = HTTPException 400 "Промокод вже існує" /\ w' = w) /\
  (forall created, r = Ok created ->
     promo_codes w' = (promo_codes w ++ [created_doc created])%list /\
     code (created_doc created) = upper (pc_code data) /\
     usage_count (created_doc created) = 0%Z) /\
  ((forall c, r <> Ok c) -> w' = w) /\
  (NoDup (map code (promo_codes w)) -> NoDup (map code (promo_codes w'))) /\
  (Forall (fun p => upper (code p) = code p) (promo_codes w) ->
   Forall (fun p => upper (code p) = code p) (promo_codes w')).
Proof.
  intros C. rewrite create_promo_code_run, C.
  destruct (find_one_raises env).
  { intros H; inversion H; subst. repeat split; auto; try discriminate. }
  destruct (find _ (promo_codes w)) as [q|] eqn:F.
  { intros H; inversion H; subst. repeat split; auto; try discriminate. }
  pose proof (find_none_code _ _ F) as N.
  destruct (insert_one_raises env).
  { intros H; inversion H; subst.
    split; [intros I; contradiction|].
    repeat split; auto; try discriminate. }
  intros H; inversion H; subst r w'; clear H.
  cbn [promo_codes with_promo_codes].
  split; [intros I; contradiction|]. split; [|split; [|split]].
  - intros created E. inversion E; subst created. auto.
  - intros Hc. exfalso. eapply Hc. reflexivity.
  - intros D. rewrite map_app. cbn [map new_promo_doc code].
    apply NoDup_app; [exact D|repeat constructor; intros []|].
    intros x Hx [<-|[]]. exact (N Hx).
  - intros U. apply Forall_app. split; [exact U|].
    constructor; [|constructor]. cbn [new_promo_doc code]. apply upper_idem.
Qed.

Lemma create_promo_code_keeps_codes_distinct_witness :
  create_promo_code quiet
    {| pc_code := "ten"; pc_discount_type := "fixed"; pc_discount_value := 5;
       pc_valid_from := None; pc_valid_to := None; pc_usage_limit := None;
       pc_min_order_amount := 0; pc_is_active := true |}
    (shop true [promo "TEN" "percentage" 10 None true])
  = (HTTPException 400 "Промокод вже існує",
     shop true [promo "TEN" "percentage" 10 None true]).
Proof.
  destruct (create_promo_code quiet
              {| pc_code := "ten"; pc_discount_type := "fixed";
                 pc_discount_value := 5; pc_valid_from := None;
                 pc_valid_to := None; pc_usage_limit := None;
                 pc_min_order_amount := 0; pc_is_active := true |}
              (shop true [promo "TEN" "percentage" 10 None true]))
    as [r w'] eqn:E.
  assert (C : connected (shop true [promo "TEN" "percentage" 10 None true])
              = true) by reflexivity.
  destruct (create_promo_code_keeps_codes_distinct _ _ _ _ _ C E) as (R & _).
  destruct R as [-> ->]; [vm_compute; auto|reflexivity|reflexivity].
Defined.

(** X18: a promo code created against the database is found again under
    any spelling of its code that has the same upper case: validation
    then runs the checks, in the specification's order, on the created
    document (a usage limit of 0 set aside). *)
Theorem create_promo_code_then_validate env env' data w created w' c t :
  connected w = true ->
  create_promo_code env data w = (Ok created, w') ->
  upper c = upper (pc_code data) ->
  find_one_raises env' = false ->
  pc_usage_limit data <> Some 0%Z ->
  created_doc created = new_promo_doc data /\
  validate_promo_code env' c t w'
  = (Ok (spec_promo_check (Some (new_promo_doc data)) (utcnow_validate env') t),
     w').
Proof.
  intros C E U F L. rewrite create_promo_code_run, C in E.
  destruct (find_one_raises env); [discriminate|].
  destruct (find _ (promo_codes w)) as [q|] eqn:N; [discriminate|].
  destruct (insert_one_raises env); [discriminate|].
  inversion E; subst created w'; clear E. split; [reflexivity|].
  assert (X : find (fun p => (code p =? upper c)%string)
                   (promo_codes w ++ [new_promo_doc data])
              = Some (new_promo_doc data)).
  { rewrite U, (find_app_r _ _ _ N). cbn [new_promo_doc code].
    now rewrite String.eqb_refl. }
  rewrite validate_promo_code_connected; cbn [connected promo_codes with_promo_codes];
    auto.
  - now rewrite X.
  - intros p Hp. rewrite X in Hp. inversion Hp; subst p. exact L.
Qed.

Lemma create_promo_code_then_validate_witness :
  exists created w',
    create_promo_code quiet
      {| pc_code := "Spring"; pc_discount_type := "fixed";
         pc_discount_value := 5; pc_valid_from := None; pc_valid_to := None;
         pc_usage_limit := Some 3%Z; pc_min_order_amount := 0;
         pc_is_active := true |}
      (shop true [])
    = (Ok created, w') /\
    fst (validate_promo_code quiet "sPRING" 100 w')
    = Ok (Valid (created_doc created)).
Proof.
  assert (E : exists created w',
             create_promo_code quiet
               {| pc_code := "Spring"; pc_discount_type := "fixed";
                  pc_discount_value := 5; pc_valid_from := None;
                  pc_valid_to := None; pc_usage_limit := Some 3%Z;
                  pc_min_order_amount := 0; pc_is_active := true |}
               (shop true [])
             = (Ok created, w'))
    by (vm_compute; eexists; eexists; reflexivity).
  destruct E as (created & w' & E). exists created, w'. split; [exact E|].
  destruct (create_promo_code_then_validate quiet quiet _ (shop true []) _ _
              "sPRING" 100 eq_refl E) as (D & V);
    [reflexivity|reflexivity|discriminate|].
  rewrite V, D. reflexivity.
Defined.

(** X19: in demo mode a promo code is never refused: the document is
    added at the end of DEMO_PROMO_CODES even when the code is there
    already, with the next number as identifier.  Validation afterwards
    still answers with the first active promo that had the code before,
    if there was one, and with the new promo otherwise, if it is
    active. *)
Theorem create_promo_code_demo env env' data w c t :
  connected w = false ->
  upper c = upper (pc_code data) ->
  exists w',
    create_promo_code env data w
    = (Ok {| created_id := str_nat (List.length (DEMO_PROMO_CODES w) + 1);
             created_doc := new_promo_doc data;
             created_time := utcnow_doc env |}, w') /\
    DEMO_PROMO_CODES w' = (DEMO_PROMO_CODES w ++ [new_promo_doc data])%list /\
    promo_codes w' = promo_codes w /\
    validate_promo_code env' c t w'
    = (Ok match find (fun p => (upper (code p) =? upper c)%string
                               && is_active p) (DEMO_PROMO_CODES w) with
          | Some p => Valid p
          | None => if pc_is_active data then Valid (new_promo_doc data)
                    else Invalid PromoNotFound
          end, w').
Proof.
  intros C U. rewrite create_promo_code_run, C.
  eexists. split; [reflexivity|]. cbn [DEMO_PROMO_CODES with_DEMO_PROMO_CODES
                                       promo_codes].
  split; [reflexivity|]. split; [reflexivity|].
  unfold validate_promo_code. run_route.
  set (w' := with_DEMO_PROMO_CODES (DEMO_PROMO_CODES w ++ [new_promo_doc data]) w).
  change (connected w') with (connected w).
  rewrite C. cbn [negb]. cbv beta.
  change (DEMO_PROMO_CODES w')
    with (DEMO_PROMO_CODES w ++ [new_promo_doc data])%list.
  destruct (find _ (DEMO_PROMO_CODES w)) as [p|] eqn:F.
  - assert (X : find (fun q => (upper (code q) =? upper c)%string && is_active q)
                     (DEMO_PROMO_CODES w ++ [new_promo_doc data]) = Some p).
    { clear -F. induction (DEMO_PROMO_CODES w) as [|y l IH]; [discriminate|].
      cbn [find app] in *. destruct ((upper (code y) =? upper c)%string && is_active y);
        auto. }
    now rewrite X.
  - rewrite (find_app_r _ _ _ F). cbn [new_promo_doc code is_active].
    rewrite upper_idem, U, String.eqb_refl. cbn [andb].
    destruct (pc_is_active data); reflexivity.
Qed.

Lemma create_promo_code_demo_witness :
  exists w',
    fst (create_promo_code quiet
           {| pc_code := "ten"; pc_discount_type := "fixed";
              pc_discount_value := 5; pc_valid_from := None;
              pc_valid_to := None; pc_usage_limit := None;
              pc_min_order_amount := 0; pc_is_active := true |}
           (shop false [promo "TEN" "percentage" 10 None true]))
    = Ok {| created_id := "2";
            created_doc := promo "TEN" "fixed" 5 None true;
            created_time := noon |} /\
    validate_promo_code quiet "ten" 100 w'
    = (Ok (Valid (promo "TEN" "percentage" 10 None true)), w').
Proof.
  destruct (create_promo_code_demo quiet quiet
              {| pc_code := "ten"; pc_discount_type := "fixed";
                 pc_discount_value := 5; pc_valid_from := None;
                 pc_valid_to := None; pc_usage_limit := None;
                 pc_min_order_amount := 0; pc_is_active := true |}
              (shop false [promo "TEN" "percentage" 10 None true])
              "ten" 100 eq_refl eq_refl) as (w' & E & _ & _ & V).
  exists w'. split.
  - rewrite E. reflexivity.
  - exact V.
Defined.

(** ** Listing the orders *)

Lemma firstn_prefix {A} n (l : list A) : exists r, l = (firstn n l ++ r)%list.
Proof. exists (skipn n l). symmetry. apply firstn_skipn. Qed.

(** X21: the order list in demo mode.  The route changes nothing and
    answers with the first orders of DEMO_ORDERS (of those with the
    status asked for, when a non-empty status is given): the first
    [limit] of them, or all when there are fewer, for a limit of 0 or
    more, and all but the last [-limit] for a negative limit. *)
Theorem get_orders_demo find_sorted find_raises by_status limit w :
  connected w = false ->
  exists l rest,
    get_orders find_sorted find_raises by_status limit w = (Ok l, w) /\
    (if truthy by_status
     then filter (fun o => is_str by_status (status o)) (DEMO_ORDERS w)
     else DEMO_ORDERS w) = (l ++ rest)%list /\
    (truthy by_status = true ->
     Forall (fun o => Some (status o) = by_status) l) /\
    ((0 <= limit)%Z -> (Z.of_nat (List.length l) <= limit)%Z) /\
    ((limit < 0)%Z ->
     List.length l
     = (List.length (l ++ rest) - Z.to_nat (- limit))%nat) /\
    ((0 <= limit)%Z ->
     List.length l = Nat.min (Z.to_nat limit) (List.length (l ++ rest))).
Proof.
  intros C. unfold get_orders. run_route. rewrite C. cbn [negb].
  set (all := if truthy by_status
              then filter (fun o => is_str by_status (status o)) (DEMO_ORDERS w)
              else DEMO_ORDERS w).
  assert (P : exists r, all = (slice_to all limit ++ r)%list).
  { unfold slice_to. destruct (0 <=? limit)%Z; apply firstn_prefix. }
  destruct P as (rest & P).
  exists (slice_to all limit), rest. split; [reflexivity|].
  split; [exact P|]. split; [|split; [|split]].
  - intros T. subst all. rewrite T in *.
    assert (F : Forall (fun o => Some (status o) = by_status)
                  (filter (fun o => is_str by_status (status o)) (DEMO_ORDERS w))).
    { apply Forall_forall. intros o Ho. apply filter_In in Ho.
      destruct Ho as [_ Ho]. unfold is_str in Ho.
      destruct by_status as [s|]; [|discriminate].
      apply String.eqb_eq in Ho. now subst. }
    rewrite P in F. now apply Forall_app in F.
  - intros L. unfold slice_to.
    destruct (0 <=? limit)%Z eqn:E; [|apply Z.leb_gt in E; lia].
    rewrite length_firstn. lia.
  - intros L. rewrite <- P. unfold slice_to.
    destruct (0 <=? limit)%Z eqn:E; [apply Z.leb_le in E; lia|].
    rewrite length_firstn. lia.
  - intros L. rewrite <- P. unfold slice_to.
    destruct (0 <=? limit)%Z eqn:E; [|apply Z.leb_gt in E; lia].
    apply length_firstn.
Qed.

Lemma get_orders_demo_witness :
  exists os w l rest,
    admit_all str_whole
      [(quiet, cart [item "Latte" 1 50 []] "dine_in" None None);
       (quiet, cart [item "Cake" 1 70 []] "dine_in" None None);
       (quiet, cart [item "Soup" 1 80 []] "takeaway" None None)]
      (shop false [])
    = (os, w) /\
    get_orders (fun _ _ x => x) false (Some "new"%string) 2 w = (Ok l, w) /\
    map order_number l = ["ORD-20240101-003"; "ORD-20240101-002"]%string /\
    DEMO_ORDERS w = (l ++ rest)%list /\
    List.length rest = 1%nat.
Proof.
  assert (E : exists os w,
             admit_all str_whole
               [(quiet, cart [item "Latte" 1 50 []] "dine_in" None None);
                (quiet, cart [item "Cake" 1 70 []] "dine_in" None None);
                (quiet, cart [item "Soup" 1 80 []] "takeaway" None None)]
               (shop false [])
             = (os, w) /\
             connected w = false /\
             map order_number (DEMO_ORDERS w)
             = ["ORD-20240101-003"; "ORD-20240101-002";
                "ORD-20240101-001"]%string /\
             filter (fun o => is_str (Some "new"%string) (status o))
                    (DEMO_ORDERS w) = DEMO_ORDERS w)
    by (vm_compute; do 2 eexists; repeat split; reflexivity).
  destruct E as (os & w & E & C & N & F).
  destruct (get_orders_demo (fun _ _ x => x) false (Some "new"%string) 2
              w C) as (l & rest & G & P & _ & _ & _ & L).
  specialize (L ltac:(lia)). cbn [truthy] in P. rewrite F in P.
  assert (Len : List.length (DEMO_ORDERS w) = 3%nat)
    by (rewrite <- (length_map order_number (DEMO_ORDERS w)), N; reflexivity).
  rewrite <- P, Len in L. change (Nat.min (Z.to_nat 2) 3) with 2%nat in L.
  exists os, w, l, rest. split; [exact E|]. split; [exact G|].
  rewrite P in N, Len. rewrite length_app, L in Len.
  destruct l as [|a [|b [|c l]]]; try discriminate.
  cbn [map app] in N. split; [|split; [exact P|lia]].
  inversion N. reflexivity.
Defined.

(** X22: in demo mode the newest order comes first: right after an
    admission, the order list without a status filter and with a limit of
    1 or more starts with the order just admitted. *)
Theorem create_order_then_get_orders
    py_str find_sorted find_raises env data w o w1 limit :
  connected w = false ->
  create_order py_str env data w = (Ok o, w1) ->
  (1 <= limit)%Z ->
  exists l,
    get_orders find_sorted find_raises None limit w1 = (Ok (o :: l), w1).
Proof.
  intros C E L.
  pose proof (create_order_keeps_orders _ _ _ _ _ _ E) as (C1 & _ & K).
  rewrite C in K, C1. destruct K as (K & _).
  unfold get_orders. run_route. rewrite C1. cbn [negb truthy]. rewrite K.
  unfold slice_to. destruct (0 <=? limit)%Z eqn:Z0; [|apply Z.leb_gt in Z0; lia].
  destruct (Z.to_nat limit) as [|n] eqn:N; [lia|].
  cbn [firstn]. eexists. reflexivity.
Qed.

Lemma create_order_then_get_orders_witness :
  exists o w1 l,
    create_order str_whole quiet
      (cart [item "Latte" 1 50 []] "dine_in" None None) (shop false [])
    = (Ok o, w1) /\
    get_orders (fun _ _ l => l) false None 50 w1 = (Ok (o :: l), w1).
Proof.
  assert (E : exists o w1,
             create_order str_whole quiet
               (cart [item "Latte" 1 50 []] "dine_in" None None) (shop false [])
             = (Ok o, w1))
    by (vm_compute; do 2 eexists; reflexivity).
  destruct E as (o & w1 & E).
  destruct (create_order_then_get_orders str_whole (fun _ _ l => l) false
              quiet (cart [item "Latte" 1 50 []] "dine_in" None None)
              (shop false []) o w1 50%Z) as (l & G);
    [reflexivity|exact E|lia|].
  exists o, w1, l. auto.
Defined.

(** ** The last use of a promo code *)

Lemma find_update_first {A} (f : A -> bool) (g : A -> A) l p :
  find f l = Some p -> f (g p) = true ->
  find f (fst (update_first f g l)) = Some (g p).
Proof.
  intros F G. induction l as [|x l IH]; [discriminate|].
  cbn [find update_first] in *. destruct (f x) eqn:E.
  - inversion F; subst x. cbn [fst find]. now rewrite G.
  - specialize (IH F). destruct (update_first f g l) as [l' m].
    cbn [fst find] in *. now rewrite E.
Qed.

(** X23: against the database, once an admission has redeemed the last
    use of a promo code (usage_count + 1 = usage_limit), whether or not
    its order was then stored, a later validation of the code inside its
    validity window answers "usage limit exceeded". *)
Theorem promo_last_use py_str env env' data w p lim r w' c' t' :
  connected w = true ->
  below_delivery_minimum data w = false ->
  truthy (promo_code data) = true ->
  validate_promo_code env (code_given data) (cart_subtotal data) w
  = (Ok (Valid p), w) ->
  update_one_raises env = false ->
  usage_limit p = Some lim -> lim <> 0%Z -> (usage_count p + 1 = lim)%Z ->
  create_order py_str env data w = (r, w') ->
  upper c' = code p ->
  find_one_raises env' = false ->
  in_window p (utcnow_validate env') = true ->
  validate_promo_code env' c' t' w' = (Ok (Invalid PromoUsageExceeded), w').
Proof.
  intros C B T V U L N Last E Uc F Win.
  rewrite create_order_run, B in E.
  pose proof (apply_promo_Valid env data w p T V) as A.
  rewrite C, U in A. cbn [andb] in A.
  erewrite bind_Ok in E by exact A.
  destruct (redeemed_keeps p w) as (Kc & _).
  assert (S : connected w' = true /\ promo_codes w' = promo_codes (redeemed p w)).
  { apply commit_order_outcome in E.
    destruct E as [(_ & -> & _)|(o & _ & Hc & Hp & _)].
    - split; [congruence|reflexivity].
    - split; [congruence|exact Hp]. }
  destruct S as (C' & P').
  pose proof (validate_promo_code_Valid_connected _ _ _ _ _ _ C V)
    as (Fd & Act & _ & _).
  pose proof (find_some _ _ Fd) as [_ K]. apply String.eqb_eq in K.
  assert (X : find (fun q => (code q =? upper c')%string) (promo_codes w')
              = Some (inc_usage_count p)).
  { rewrite P', Uc. unfold redeemed. rewrite C.
    cbn [promo_codes with_promo_codes].
    rewrite <- K in Fd. apply find_update_first; [exact Fd|].
    cbn [inc_usage_count code]. apply String.eqb_refl. }
  rewrite validate_promo_code_connected; auto.
  - rewrite X. unfold spec_promo_check.
    cbn [inc_usage_count is_active valid_from valid_to usage_limit usage_count].
    rewrite Act. cbn [negb].
    unfold in_window in Win. apply andb_true_iff in Win.
    destruct Win as [W1 W2]. apply negb_true_iff in W1, W2.
    rewrite W1, W2, L.
    assert (Z : (lim <=? usage_count p + 1)%Z = true) by (apply Z.leb_le; lia).
    now rewrite Z.
  - intros q Hq. rewrite X in Hq. inversion Hq; subst q.
    cbn [inc_usage_count usage_limit]. rewrite L. congruence.
Qed.

Lemma promo_last_use_witness :
  exists o w',
    create_order str_whole quiet
      (cart [item "Latte" 2 500 []] "dine_in" None (Some "ten"))
      (shop true [promo "TEN" "percentage" 10 (Some 1%Z) true])
    = (Ok o, w') /\
    validate_promo_code quiet "ten" 1000 w'
    = (Ok (Invalid PromoUsageExceeded), w').
Proof.
  assert (E : exists o w',
             create_order str_whole quiet
               (cart [item "Latte" 2 500 []] "dine_in" None (Some "ten"))
               (shop true [promo "TEN" "percentage" 10 (Some 1%Z) true])
             = (Ok o, w'))
    by (vm_compute; eexists; eexists; reflexivity).
  destruct E as (o & w' & E). exists o, w'. split; [exact E|].
  apply (promo_last_use str_whole quiet quiet
           (cart [item "Latte" 2 500 []] "dine_in" None (Some "ten"))
           (shop true [promo "TEN" "percentage" 10 (Some 1%Z) true])
           (promo "TEN" "percentage" 10 (Some 1%Z) true) 1%Z (Ok o) w');
    try reflexivity; try exact E.
  discriminate.
Defined.
